(** * trippy.bgFinder: background estimators

    A shallow embedding of [src/trippy/bgFinder.py] (Python 2, numpy, scipy).

    The class [bgFinder] stores a flattened sample ([self.data]) and, once a
    Gaussian fit has been run, the fitted pair ([self.gauss]).  Its methods are
    embedded as functions in a state-and-exception monad over that record.

    numpy scalars are kept abstract behind the interface [num.Float]; its
    instance is IEEE binary64 ([PrimFloat.float]), what numpy computes with.
    Statements that need no arithmetic are proved for the interface, the
    others for binary64, from the specification of its operations. *)

From Stdlib Require Import ZArith List String Bool Lia Sorted.
From Stdlib Require Floats.
Import ListNotations.

Local Open Scope string_scope.
Local Open Scope list_scope.
Local Open Scope Z_scope.

(** ** Python results *)

Inductive exn : Type :=
| IndexError
| ValueError
| AttributeError
| RuntimeError.  (* maximum recursion depth exceeded *)

Inductive result (A : Type) : Type :=
| Ok (a : A)
| Raise (e : exn).
Arguments Ok {A} a.
Arguments Raise {A} e.

Definition rbind {A B} (r : result A) (k : A -> result B) : result B :=
  match r with
  | Ok a => k a
  | Raise e => Raise e
  end.

(** [len] of a Python sequence, as a Python int. *)
Definition len {A} (l : list A) : Z := Z.of_nat (List.length l).

(** [l[i]] with Python's index rules: [-len <= i < 0] counts from the end,
    anything outside [-len, len) raises IndexError. *)
Definition getitem {A} (l : list A) (i : Z) : result A :=
  let j := if i <? 0 then i + len l else i in
  if (0 <=? j) && (j <? len l) then
    match nth_error l (Z.to_nat j) with
    | Some a => Ok a
    | None => Raise IndexError
    end
  else Raise IndexError.

Fixpoint replace_nth {A} (n : nat) (a : A) (l : list A) : list A :=
  match l, n with
  | [], _ => []
  | _ :: t, O => a :: t
  | h :: t, S k => h :: replace_nth k a t
  end.

(** [l[i] = a] on a list or array, same index rules. *)
Definition setitem {A} (l : list A) (i : Z) (a : A) : result (list A) :=
  let j := if i <? 0 then i + len l else i in
  if (0 <=? j) && (j <? len l) then Ok (replace_nth (Z.to_nat j) a l)
  else Raise IndexError.

(** Insertion into a list sorted for [lt], and the sort built on it; used for
    [num.sort] and for the sorted values of [num.unique]. *)
Fixpoint insert_sorted {A} (lt : A -> A -> bool) (x : A) (l : list A) : list A :=
  match l with
  | [] => [x]
  | y :: t => if lt y x then y :: insert_sorted lt x t else x :: y :: t
  end.

Definition sort_by {A} (lt : A -> A -> bool) (l : list A) : list A :=
  fold_right (insert_sorted lt) [] l.

(** ** numpy *)

Module num.

(** The scalar operations of numpy the module uses, on float64 values. *)
Class Float (F : Type) : Type := {
  of_int : Z -> F;            (* int -> float conversion in mixed arithmetic *)
  add : F -> F -> F;
  subtract : F -> F -> F;
  multiply : F -> F -> F;
  divide : F -> F -> F;
  negative : F -> F;
  sqrt : F -> F;              (* x ** 0.5 *)
  log : F -> F;
  pi : F;
  less : F -> F -> bool;
  less_equal : F -> F -> bool;
  isnan : F -> bool;
  isinf : F -> bool;
  signbit : F -> bool;
  astype_int : F -> Z;        (* .astype(int): C cast, rounds toward zero *)
  ceil : F -> Z
}.

(** The one fact about the order the proofs use: [x <= y] excludes [x > y]
    (on float64 also for NaN, where both are False). *)
Class Ordered (F : Type) `{Float F} : Prop := {
  less_equal_not_greater :
    forall x y, less_equal x y = true -> less y x = false
}.

(** [x > y] is [y < x]. *)
Definition greater {F} `{Float F} (x y : F) : bool := less y x.

(** [x == y] on floats is [x <= y and y <= x]. *)
Definition equal {F} `{Float F} (x y : F) : bool :=
  less_equal x y && less_equal y x.

Section Arrays.
Context {F : Type} `{Float F}.

(** A decimal literal [p/q] of the source: the float nearest to it. *)
Definition lit (p q : Z) : F := divide (of_int p) (of_int q).

(** [r[j] += a[i+j]] for the accumulators of the unrolled loop. *)
Fixpoint add_lanes (r a : list F) : list F :=
  match r, a with
  | x :: r', y :: a' => add x y :: add_lanes r' a'
  | _, _ => r
  end.

(** The unrolled loop of numpy's pairwise summation: [blocks] whole blocks of
    eight are added to the eight accumulators [r]; what it returns with them
    is the rest of the array, fewer than eight entries. *)
Fixpoint unrolled (blocks : nat) (r a : list F) : list F * list F :=
  match blocks with
  | O => (r, a)
  | S k => unrolled k (add_lanes r (firstn 8 a)) (skipn 8 a)
  end.

(** Pairwise summation of 8 to 128 entries: eight accumulators, combined as
    ((r0+r1)+(r2+r3)) + ((r4+r5)+(r6+r7)), then the rest added in order. *)
Definition pairwise_block (a : list F) : F :=
  let '(r, rest) := unrolled (List.length a / 8 - 1) (firstn 8 a) (skipn 8 a) in
  match r with
  | [r0; r1; r2; r3; r4; r5; r6; r7] =>
      fold_left add rest
        (add (add (add r0 r1) (add r2 r3)) (add (add r4 r5) (add r6 r7)))
  | _ => fold_left add a (of_int 0)
  end.

(** numpy's pairwise summation of a contiguous array: fewer than eight
    entries are added in order from 0, up to 128 by [pairwise_block], and a
    longer array is split at n/2 rounded down to a multiple of eight.
    [depth] bounds the splitting; the length of the array is enough. *)
Fixpoint pairwise_sum (depth : nat) (a : list F) : F :=
  let n := List.length a in
  if Nat.ltb n 8 then fold_left add a (of_int 0)
  else if Nat.leb n 128 then pairwise_block a
  else
    match depth with
    | O => pairwise_block a
    | S d =>
        let n2 := (n / 2 - (n / 2) mod 8)%nat in
        add (pairwise_sum d (firstn n2 a)) (pairwise_sum d (skipn n2 a))
    end.

(** [num.sum], that is [add.reduce]: the identity 0 plus the pairwise sum. *)
Definition sum (a : list F) : F :=
  add (of_int 0) (pairwise_sum (List.length a) a).

(** [num.mean]: on an empty array the quotient is 0/0. *)
Definition mean (a : list F) : F := divide (sum a) (of_int (len a)).

(** [num.sort]: increasing, with the NaNs last. *)
Definition sort (a : list F) : list F :=
  sort_by less (filter (fun x => negb (isnan x)) a) ++ filter isnan a.

(** [num.median]: the mean of the middle element of the sorted array, or of
    the two middle ones (numpy takes [mean] of a slice of one or two
    entries); NaN when the array holds a NaN (the NaNs are last in the
    sorted array); on an empty array the mean of an empty slice. *)
Definition median (a : list F) : F :=
  let b := sort a in
  let n := List.length b in
  if Nat.eqb n 0 then mean []
  else if isnan (last b (of_int 0)) then last b (of_int 0)
  else if Nat.odd n then mean [nth (Nat.div n 2) b (of_int 0)]
  else mean [nth (Nat.div n 2 - 1) b (of_int 0); nth (Nat.div n 2) b (of_int 0)].

(** [num.std]: sqrt(mean(|x - mean(x)|**2)), the population deviation. *)
Definition std (a : list F) : F :=
  let mu := mean a in
  sqrt (mean (map (fun x => multiply (subtract x mu) (subtract x mu)) a)).

(** [num.searchsorted(b, v)] (side='left') for one value: the leftmost
    insertion position, the index of the first element not below [v]. *)
Fixpoint searchsorted1 (b : list F) (v : F) : Z :=
  match b with
  | [] => 0
  | x :: t => if less x v then 1 + searchsorted1 t v else 0
  end.

Definition searchsorted (b vs : list F) : list Z := map (searchsorted1 b) vs.

(** [num.arange(start, stop, step)] on float64 scalars.  The length is
    ceil((stop - start)/step): a NaN length is a ValueError ("cannot compute
    length"), and so is an infinite one or one outside the range of a C intp
    ("Maximum allowed size exceeded").  A quotient that is zero though
    stop - start is not (an underflow, or an infinite step) counts as length
    1 when it is +0 and as length 0 when it is -0.  A non-positive length
    gives the empty array.  The first two entries are start and
    start + step, entry i >= 2 is start + i*delta with
    delta = (start + step) - start. *)
Definition arange (start stop step : F) : result (list F) :=
  let next := subtract stop start in
  let v := divide next step in
  if isnan v then Raise ValueError
  else if isinf v || (ceil v <? - 2 ^ 63) || (2 ^ 63 - 1 <? ceil v)
  then Raise ValueError
  else
    let length :=
      if equal v (of_int 0) && negb (equal next (of_int 0))
      then (if signbit v then 0 else 1)
      else ceil v in
    let second := add start step in
    let delta := subtract second start in
    Ok (map (fun i => match i with
                      | O => start
                      | S O => second
                      | _ => add start (multiply (of_int (Z.of_nat i)) delta)
                      end)
            (seq 0 (Z.to_nat length))).

End Arrays.

(** [n[1:] - n[:-1]] on an integer array. *)
Fixpoint diff (n : list Z) : list Z :=
  match n with
  | [] => []
  | x :: t => match t with
              | [] => []
              | y :: _ => (y - x) :: diff t
              end
  end.

(** [num.argmax] on an integer array: the first index of the maximum;
    ValueError on an empty one.  [argmax_from i best bi l] scans [l], whose
    first element has index [i], with [best] at index [bi] so far. *)
Fixpoint argmax_from (i : Z) (best : Z) (bi : Z) (l : list Z) : Z :=
  match l with
  | [] => bi
  | x :: t => if best <? x then argmax_from (i + 1) x i t
              else argmax_from (i + 1) best bi t
  end.

Definition argmax (b : list Z) : result Z :=
  match b with
  | [] => Raise ValueError
  | x :: t => Ok (argmax_from 1 x 0 t)
  end.

(** [num.unique] on an integer array: the sorted distinct values. *)
Fixpoint dedup_adjacent (l : list Z) : list Z :=
  match l with
  | [] => []
  | x :: t => match t with
              | [] => [x]
              | y :: _ => if x =? y then dedup_adjacent t else x :: dedup_adjacent t
              end
  end.

Definition unique (a : list Z) : list Z := dedup_adjacent (sort_by Z.ltb a).

End num.

(** ** scipy.stats *)

Module stats.

(** Number of entries of [a] equal to [score]: [sum(a == score)]. *)
Definition count (score : Z) (a : list Z) : Z :=
  len (filter (Z.eqb score) a).

(** One round of the loop of [stats.mode]: a score replaces the current
    most frequent one only when its count is strictly larger. *)
Definition step (a : list Z) (acc : Z * Z) (score : Z) : Z * Z :=
  let '(mostfrequent, oldcounts) := acc in
  let counts := count score a in
  if oldcounts <? counts then (score, counts) else (mostfrequent, oldcounts).

(** [stats.mode(a)[0]]: loops over [num.unique(a)] in increasing order, from
    (0, 0); an array of one element, or the empty array when [a] is empty. *)
Definition mode (a : list Z) : list Z :=
  match a with
  | [] => []
  | _ => [fst (fold_left (step a) (num.unique a) (0, 0))]
  end.

End stats.

(** ** The class bgFinder *)

(** The attributes of an instance: [self.data], and [self.gauss], which does
    not exist until a Gaussian fit has stored its result. *)
Record bgFinder (F : Type) : Type := mk_bgFinder {
  data : list F;
  gauss : option (F * F)
}.
Arguments mk_bgFinder {F} data gauss.
Arguments data {F} b.
Arguments gauss {F} b.

(** A method body: it reads and may write the attributes of [self], and
    returns a value or raises. *)
Definition action (F A : Type) : Type := bgFinder F -> result A * bgFinder F.

Definition ret {F A} (a : A) : action F A := fun self => (Ok a, self).

Definition raise {F A} (e : exn) : action F A := fun self => (Raise e, self).

Definition bind {F A B} (c : action F A) (k : A -> action F B) : action F B :=
  fun self =>
    match c self with
    | (Ok a, self') => k a self'
    | (Raise e, self') => (Raise e, self')
    end.

Definition lift {F A} (r : result A) : action F A := fun self => (r, self).

Declare Scope float_np_scope.
Delimit Scope float_np_scope with float_np.
Declare Scope action_scope.
Delimit Scope action_scope with action.
Notation "x <- c ;; k" := (bind c (fun x => k))
  (at level 61, c at next level, right associativity) : action_scope.
Notation "' p <- c ;; k" := (bind c (fun p => k))
  (at level 61, p pattern, c at next level, right associativity) : action_scope.
Notation "x <~ c ;; k" := (rbind c (fun x => k))
  (at level 61, c at next level, right associativity) : action_scope.
Local Open Scope action_scope.

(** A keyword argument left out takes its default. *)
Definition default {A} (d : A) (o : option A) : A :=
  match o with
  | None => d
  | Some a => a
  end.

(** [num.where(mask)[0]]: the indices at which the mask holds. *)
Fixpoint where_from (i : Z) (mask : list bool) : list Z :=
  match mask with
  | [] => []
  | b :: t => if b then i :: where_from (i + 1) t else where_from (i + 1) t
  end.

Definition where_ (mask : list bool) : list Z := where_from 0 mask.

(** [a[idx]] with an index array: IndexError on an index out of range. *)
Fixpoint take {A} (a : list A) (idx : list Z) : result (list A) :=
  match idx with
  | [] => Ok []
  | i :: t => x <~ getitem a i ;; r <~ take a t ;; Ok (x :: r)
  end.

(** [y == mode] where [mode] is the one-element (or empty) array returned by
    [stats.mode]: numpy broadcasts it against [y]. *)
Definition equal_broadcast (y mode : list Z) : list bool :=
  match mode with
  | [m] => map (fun q => q =? m) y
  | _ => []
  end.

Section Methods.
Context {F : Type} `{num.Float F}.

(** [scipy.optimize.fmin(func, x0, disp=False)]: the simplex search, given
    the objective and the starting pair, returns the pair it stops on. *)
Variable fmin : (F * F -> F) -> F * F -> F * F.

Notation "x + y" := (num.add x y) : float_np_scope.
Notation "x - y" := (num.subtract x y) : float_np_scope.
Notation "x * y" := (num.multiply x y) : float_np_scope.
Notation "x / y" := (num.divide x y) : float_np_scope.
Notation "- x" := (num.negative x) : float_np_scope.

(** [__init__]: [num.ravel] flattens; the sample is modelled flat. *)
Definition __init__ (data : list F) : bgFinder F := mk_bgFinder data None.

(* ahist and stats generously donated by JJ Kavelaars from jjkmode.py *)
Definition _ahist (nbins : F) : action F (list Z * F * F) :=
  fun self =>
    let b := num.sort (data self) in
    (mx <~ getitem b (len b - Z.max 1 (len b / 100)) ;;
     mn <~ getitem b (len b - 99 * len b / 100) ;;
     let w := ((mx - mn) / nbins)%float_np in
     edges <~ num.arange mn mx w ;;
     let n := num.searchsorted b edges in
     let n := n ++ [len b] in
     Ok (num.diff n, w, mn),
     self).

(** Returns mode, std of mode. *)
Definition _stats (nbins : F) : action F (F * F) :=
  ' (b, w, l) <- _ahist nbins ;;
  b <- lift (setitem b (len b - 1) 0) ;;
  b <- lift (setitem b 0 0) ;;
  am <- lift (num.argmax b) ;;
  bam <- lift (getitem b am) ;;
  let c := filter (fun x => bam / 2 <? x) b in
  ret ((num.of_int am * w + l)%float_np,
       ((num.of_int (len c) * w / num.of_int 2) / num.lit 141 100)%float_np).

Definition _fraserMode (multi : F) : action F F :=
  fun self =>
    let y := map (fun x => num.astype_int (x * multi)%float_np) (data self) in
    let mode := stats.mode y in
    let w := where_ (equal_broadcast y mode) in
    (sel <~ take (data self) w ;; Ok (num.median sel), self).

Definition _gaussLike (self : bgFinder F) (x : F * F) : F :=
  let '(m, s) := x in
  let X := (- num.sum (map (fun d => (d - m) * (d - m)) (data self))
            / (num.of_int 2 * s * s))%float_np in
  let X := (X - num.of_int (len (data self))
                * num.log (num.sqrt (num.of_int 2 * num.pi * s * s)))%float_np in
  (- X)%float_np.

Definition _gaussFit : action F F :=
  fun self =>
    let med := num.median (data self) in
    let std := num.std (data self) in
    let res := fmin (_gaussLike self) (med, std) in
    (Ok (fst res), mk_bgFinder (data self) (Some res)).

Definition histMode (nbins : option F) : action F F :=
  r <- _stats (default (num.of_int 50) nbins) ;; ret (fst r).

Definition median : action F F := fun self => (Ok (num.median (data self)), self).

Definition mean : action F F := fun self => (Ok (num.mean (data self)), self).

Definition fraserMode (multi : option F) : action F F :=
  _fraserMode (default (num.lit 1 10) multi).

Definition gaussFit : action F F := _gaussFit.

(** [(g,s)=self.gauss] *)
Definition get_gauss : action F (F * F) :=
  fun self =>
    match gauss self with
    | Some gs => (Ok gs, self)
    | None => (Raise AttributeError, self)
    end.

(** The body of [smartBackground], with [self(...)] passed as [self_call].
    [verbose] only prints and [display] only plots; both default to False
    and are left out. *)
Definition smartBackground_body (self_call : string -> option F -> action F F)
    (gaussStdLimit : F) (backupMode : string) (inp : option F) : action F F :=
  _ <- _gaussFit ;;
  ' (g, s) <- get_gauss ;;
  if num.greater (s / num.sqrt g)%float_np gaussStdLimit then
    g <- match inp with
         | Some _ => self_call backupMode inp
         | None => ret g
         end ;;
    g <- self_call backupMode None ;;
    ret g
  else ret g.

(** [__call__] and [smartBackground] call each other; [depth] bounds the
    nesting of these calls, as the interpreter's recursion limit does.
    ([method] defaults to 'median' in the source; here it is always given.) *)
Fixpoint call_depth (depth : nat) (method : string) (inp : option F)
  : action F F :=
  match depth with
  | O => raise RuntimeError
  | S d =>
      if String.eqb method "median" then
        fun self => (Ok (num.median (data self)), self)
      else if String.eqb method "mean" then
        fun self => (Ok (num.mean (data self)), self)
      else if String.eqb method "histMode" then
        let bins := match inp with None => num.of_int 50 | Some i => i end in
        r <- _stats bins ;; ret (fst r)
      else if String.eqb method "fraserMode" then
        let n := match inp with None => num.lit 1 10 | Some i => i end in
        _fraserMode n
      else if String.eqb method "gaussFit" then
        _gaussFit
      else if String.eqb method "smart" then
        smartBackground_body (call_depth d) (num.lit 11 10) "fraserMode" None
      else
        raise ValueError
  end.

(** Two levels are all the source can nest: [smartBackground] calls
    [self(backupMode)], which for "smart" calls [smartBackground()] with
    the default backup "fraserMode" (see [call_depth_stable]). *)
Definition __call__ (method : string) (inp : option F) : action F F :=
  call_depth 2 method inp.

Definition smartBackground (gaussStdLimit : F) (backupMode : string)
    (inp : option F) : action F F :=
  smartBackground_body __call__ gaussStdLimit backupMode inp.

End Methods.

(** ** float64: IEEE binary64 arithmetic *)

Module Binary64.
Import Floats.

Definition of_int (z : Z) : float :=
  if z <? 0 then PrimFloat.opp (PrimFloat.of_uint63 (Uint63.of_Z (- z)))
  else PrimFloat.of_uint63 (Uint63.of_Z z).

Definition INT_MIN : Z := - 2 ^ 63.

Definition in_int64 (v : Z) : bool := (INT_MIN <=? v) && (v <? 2 ^ 63).

(** The C cast double -> int64: the fraction is dropped; NaN, infinities and
    values out of range give INT_MIN (x86-64). *)
Definition astype_int (x : float) : Z :=
  match Prim2SF x with
  | S754_zero _ => 0
  | S754_finite sg m e =>
      let a := if 0 <=? e then Z.pos m * 2 ^ e else Z.pos m / 2 ^ (- e) in
      let v := if sg then - a else a in
      if in_int64 v then v else INT_MIN
  | _ => INT_MIN
  end.

(** Smallest integer not below a finite [x] (0 on NaN and infinities, where
    the callers do not use it). *)
Definition ceil (x : float) : Z :=
  match Prim2SF x with
  | S754_finite sg m e =>
      if 0 <=? e then (if sg then - (Z.pos m * 2 ^ e) else Z.pos m * 2 ^ e)
      else if sg then - (Z.pos m / 2 ^ (- e))
      else (Z.pos m + 2 ^ (- e) - 1) / 2 ^ (- e)
  | _ => 0
  end.

(** The sign bit; a NaN is given none. *)
Definition signbit (x : float) : bool :=
  match Prim2SF x with
  | S754_zero sg | S754_infinity sg | S754_finite sg _ _ => sg
  | S754_nan => false
  end.

Definition pi : float := 0x1.921fb54442d18p+1%float.

Definition ln2 : float := 0x1.62e42fefa39efp-1%float.

(** sum_{j >= k} u^(j-k) / (2j+1), cut after [n] terms, by Horner's rule. *)
Fixpoint atanh_tail (n : nat) (k : Z) (u : float) : float :=
  match n with
  | O => 0%float
  | S n' => (1 / of_int (2 * k + 1) + u * atanh_tail n' (k + 1) u)%float
  end.

(** The C library's [log], to within the rounding of the series below; its
    special values are exact: NaN on NaN and on negatives, -inf at 0, +inf
    at +inf.  For x = m * 2^e with m in [sqrt(1/2), sqrt 2), log x =
    e * ln 2 + 2 * atanh((m - 1)/(m + 1)). *)
Definition log (x : float) : float :=
  if PrimFloat.is_nan x then nan
  else if PrimFloat.ltb x 0 then nan
  else if PrimFloat.eqb x 0 then neg_infinity
  else if PrimFloat.is_infinity x then infinity
  else
    let (m0, e0) := FloatOps.Z.frexp x in
    let (m, e) := if PrimFloat.ltb m0 0x1.6a09e667f3bcdp-1%float
                  then ((2 * m0)%float, e0 - 1) else (m0, e0) in
    let t := ((m - 1) / (m + 1))%float in
    (of_int e * ln2 + 2 * t * atanh_tail 16 0 (t * t))%float.

#[global] Instance float64 : num.Float float := {|
  num.of_int := of_int;
  num.add := PrimFloat.add;
  num.subtract := PrimFloat.sub;
  num.multiply := PrimFloat.mul;
  num.divide := PrimFloat.div;
  num.negative := PrimFloat.opp;
  num.sqrt := PrimFloat.sqrt;
  num.log := log;
  num.pi := pi;
  num.less := PrimFloat.ltb;
  num.less_equal := PrimFloat.leb;
  num.isnan := PrimFloat.is_nan;
  num.isinf := PrimFloat.is_infinity;
  num.signbit := signbit;
  num.astype_int := astype_int;
  num.ceil := ceil
|}.

End Binary64.


(** ** Vocabulary of the statements *)

Section Vocabulary.
Context {F : Type} `{num.Float F}.
Variable fmin : (F * F -> F) -> F * F -> F * F.

(** The pair the Gaussian fit of [self] produces: the optimizer run on the
    objective of [self] from (median, standard deviation). *)
Definition fit_of (self : bgFinder F) : F * F :=
  fmin (_gaussLike self) (num.median (data self), num.std (data self)).

(** [self] once a fit has been stored. *)
Definition fitted (self : bgFinder F) : bgFinder F :=
  mk_bgFinder (data self) (Some (fit_of self)).

(** The minimiser of the Gaussian negative log-likelihood of the sample [a]
    in closed form, the sample mean and the population standard deviation:
    the point the simplex search converges to.  The examples use it where
    they need an optimizer. *)
Definition fmin_converged (a : list F) : (F * F -> F) -> F * F -> F * F :=
  fun _ _ => (num.mean a, num.std a).

(** Two floats that compare alike: both NaN, or equal under [==], which
    does not tell -0 from +0. *)
Definition same_number (x y : F) : bool :=
  (num.isnan x && num.isnan y) || num.equal x y.

(** The sum of the squared deviations of the sample [a] from [m]. *)
Definition sum_sq (a : list F) (m : F) : F :=
  num.sum (map (fun d => num.multiply (num.subtract d m) (num.subtract d m)) a).

(** The negative log-likelihood with the signs of lines 123 to 127
    resolved: sum/(2*s*s) + N*log((2*pi*s*s)**0.5).  The scale enters as
    s*s in both terms. *)
Definition NLL_of_square (a : list F) (m s : F) : F :=
  num.add
    (num.divide (sum_sq a m)
       (num.multiply (num.multiply (num.of_int 2) s) s))
    (num.multiply (num.of_int (len a))
       (num.log
          (num.sqrt
             (num.multiply
                (num.multiply (num.multiply (num.of_int 2) num.pi) s) s)))).

(** NLL(m, s) as the specification writes it:
    sum/(2 s^2) + N * ln(sqrt(2 pi) * s). *)
Definition NLL_spec (a : list F) (m s : F) : F :=
  num.add
    (num.divide (sum_sq a m)
       (num.multiply (num.of_int 2) (num.multiply s s)))
    (num.multiply (num.of_int (len a))
       (num.log
          (num.multiply (num.sqrt (num.multiply (num.of_int 2) num.pi)) s))).

(** The population standard deviation of [a], written out:
    sqrt(mean((x - mean(a))**2)). *)
Definition root_mean_square_deviation (a : list F) : F :=
  num.sqrt (num.divide (sum_sq a (num.mean a)) (num.of_int (len a))).

(** An action that writes no attribute. *)
Definition read_only {A} (c : action F A) : Prop :=
  forall self, snd (c self) = self.

(** The contamination ratio std / sqrt(mean) of a fitted pair. *)
Definition ratio (gs : F * F) : F := num.divide (snd gs) (num.sqrt (fst gs)).

(** The quantized copy of the sample: [(data*multi).astype(int)]. *)
Definition quantize (multi : F) (a : list F) : list Z :=
  map (fun x => num.astype_int (num.multiply x multi)) a.

(** Quantization by the floor, floor(x) = -ceil(-x), as the specification
    words it; the source casts instead ([quantize]). *)
Definition quantize_floor (multi : F) (a : list F) : list Z :=
  map (fun x => - num.ceil (num.negative (num.multiply x multi))) a.

(** The sample values at the indices whose label in [y] is [m]. *)
Definition values_at (a : list F) (y : list Z) (m : Z) : list F :=
  map fst (filter (fun p => snd p =? m) (combine a y)).

(** The estimate the specification's wording of the Quantized-Mode
    estimator describes: the median of the sample values whose floor label
    is the mode of the floor labels. *)
Definition fraserMode_by_floor (multi : F) (a : list F) : F :=
  match stats.mode (quantize_floor multi a) with
  | [m] => num.median (values_at a (quantize_floor multi a) m)
  | _ => num.median []
  end.

(** Element [i] of an array, for [i] in range. *)
Definition item {A} (d : A) (l : list A) (i : Z) : A := nth (Z.to_nat i) l d.

(** The bounds and the bin width of the histogram of the sample [a]:
    lines 90 to 92 of the source on the sorted sample. *)
Definition hist_lower (a : list F) : F :=
  let b := num.sort a in item (num.of_int 0) b (len b - 99 * len b / 100).

Definition hist_upper (a : list F) : F :=
  let b := num.sort a in item (num.of_int 0) b (len b - Z.max 1 (len b / 100)).

Definition bin_width (nbins : F) (a : list F) : F :=
  num.divide (num.subtract (hist_upper a) (hist_lower a)) nbins.

(** The bin counts for the bin edges [edges], before the end bins are
    zeroed. *)
Definition raw_counts (edges a : list F) : list Z :=
  let b := num.sort a in num.diff (num.searchsorted b edges ++ [len b]).

End Vocabulary.

(** [am] is the first index at which the integer array [l] is largest. *)
Definition first_max (l : list Z) (am : Z) : Prop :=
  0 <= am < len l
  /\ (forall j, 0 <= j < len l -> item 0 l j <= item 0 l am)
  /\ (forall j, 0 <= j < am -> item 0 l j < item 0 l am).

(** [counts] is [raw] with its first and last entries set to 0. *)
Definition ends_zeroed (raw counts : list Z) : Prop :=
  len counts = len raw
  /\ item 0 counts 0 = 0
  /\ item 0 counts (len counts - 1) = 0
  /\ (forall j, 0 < j < len counts - 1 -> item 0 counts j = item 0 raw j).

(** ** Sample inputs, as float64 arrays *)

Module Examples.
Import PrimFloat.

(** A sample with little scatter around 100. *)
Definition quiet : list float := [100; 101; 99; 100]%float.

(** A sample near 7 with one far outlier. *)
Definition contaminated : list float := [1; 6; 7; 8; 400]%float.

(** The scale factor 0.2, the float nearest to 2/10. *)
Definition fifth : float := 0x1.999999999999ap-3%float.

(** A sample with negative values. *)
Definition signed : list float := [-5; -6; 5]%float.

(** Two distinct values. *)
Definition pair : list float := [1; 2]%float.

(** A single repeated value. *)
Definition constant : list float := [5; 5; 5]%float.

Definition ten : list float := [1; 2; 3; 4; 5; 6; 7; 8; 9; 10]%float.

(** 2^665 and 2^-665: their squares leave the range of float64. *)
Definition huge : float := 0x1p+665%float.

Definition tiny : float := 0x1p-665%float.

(** 0.1, 0.1, 0.1: a single repeated value that is not a binary fraction. *)
Definition tenths : list float :=
  [0x1.999999999999ap-4; 0x1.999999999999ap-4; 0x1.999999999999ap-4]%float.

End Examples.

(** ** The demonstration block *)

Section Script.
Context {F : Type} `{num.Float F}.
Variable fmin : (F * F -> F) -> F * F -> F * F.

(** The calls of the [__main__] block on the sample it has cut out of the
    image, in their order (lines 189 to 195); reading the file, printing and
    plotting are left out.  The result is the six values it prints. *)
Definition estimates : action F (F * F * F * F * F * F) :=
  mean_ <- mean ;;
  median_ <- median ;;
  histo <- histMode None ;;
  fmode <- fraserMode (Some (num.lit 1 10)) ;;
  gauss_ <- gaussFit fmin ;;
  smart <- smartBackground fmin (num.lit 11 10) "fraserMode"
             (Some (num.lit 1 10)) ;;
  ret (mean_, median_, histo, fmode, gauss_, smart).

Definition main (data : list F) : result (F * F * F * F * F * F) :=
  fst (estimates (__init__ data)).

(** What [_fraserMode] computes from the sample: the median of the values
    whose label is the mode of the labels, or of nothing on an empty
    sample. *)
Definition fraserMode_value (multi : F) (a : list F) : F :=
  match stats.mode (quantize multi a) with
  | [m] => num.median (values_at a (quantize multi a) m)
  | _ => num.median []
  end.

End Script.

(** "gaussFit" and "smart" are the two names on which [__call__] stores a
    fit. *)
Definition stores_fit (method : string) : bool :=
  String.eqb method "gaussFit" || String.eqb method "smart".

(** What the loop of [stats.mode] over the array [a] has established once it
    has gone through the scores [seen]: nothing yet, or the current pick [m]
    with count [c] is the smallest of the most frequent scores seen. *)
Definition mode_so_far (a seen : list Z) (m c : Z) : Prop :=
  (seen = [] /\ c = 0)
  \/ (In m seen /\ c = stats.count m a
      /\ forall q, In q seen ->
           stats.count q a <= c /\ (stats.count q a = c -> m <= q)).

(** The six method names [__call__] knows. *)
Definition known_methods : list string :=
  ["median"; "mean"; "histMode"; "fraserMode"; "gaussFit"; "smart"].

(** ** Vocabulary on binary64 *)

Section Binary64Vocabulary.
Import PrimFloat FloatOps SpecFloat.

(** Two results that the comparisons cannot tell apart: the same value, or
    two zeros. *)
Definition SFsame (f g : spec_float) : Prop :=
  f = g \/ exists s1 s2, f = S754_zero s1 /\ g = S754_zero s2.

(** A float that is not below zero: NaN, a zero, or a positive number. *)
Definition SFnotneg (f : spec_float) : Prop :=
  match f with
  | S754_finite true _ _ | S754_infinity true => False
  | _ => True
  end.

Definition notneg (x : float) : Prop := SFnotneg (Prim2SF x).

End Binary64Vocabulary.

(** * Properties *)

(** ** The action monad *)

Section ActionFacts.
Context {F : Type} `{num.Float F}.

Lemma read_only_ret {A} (a : A) : read_only (F := F) (ret a).
Proof. intros self; reflexivity. Qed.

Lemma read_only_raise {A} (e : exn) : read_only (F := F) (A := A) (raise e).
Proof. intros self; reflexivity. Qed.

Lemma read_only_lift {A} (r : result A) : read_only (F := F) (lift r).
Proof. intros self; reflexivity. Qed.

Lemma read_only_bind {A B} (c : action F A) (k : A -> action F B) :
  read_only c -> (forall a, read_only (k a)) -> read_only (bind c k).
Proof.
  intros Hc Hk self. unfold bind.
  specialize (Hc self). destruct (c self) as [[a|e] self']; simpl in *; subst.
  - apply Hk.
  - reflexivity.
Qed.

Lemma read_only_ahist (nbins : F) : read_only (_ahist nbins).
Proof. intros self; reflexivity. Qed.

Lemma read_only_stats (nbins : F) : read_only (_stats nbins).
Proof.
  unfold _stats.
  apply read_only_bind; [apply read_only_ahist|intros [[b w] l]].
  repeat (apply read_only_bind; [apply read_only_lift|intros ?]).
  apply read_only_ret.
Qed.

Lemma read_only_fraserMode (multi : F) : read_only (_fraserMode multi).
Proof. intros self; reflexivity. Qed.

Lemma read_only_histMode (nbins : option F) : read_only (histMode nbins).
Proof.
  unfold histMode.
  apply read_only_bind; [apply read_only_stats|intros ?; apply read_only_ret].
Qed.

End ActionFacts.

(** ** The dispatcher and the adaptive estimator *)

Section Dispatcher.
Context {F : Type} `{num.Float F}.
Variable fmin : (F * F -> F) -> F * F -> F * F.

Lemma gaussFit_run (self : bgFinder F) :
  _gaussFit fmin self = (Ok (fst (fit_of fmin self)), fitted fmin self).
Proof. reflexivity. Qed.

Lemma fit_of_data (s1 s2 : bgFinder F) :
  data s1 = data s2 -> fit_of fmin s1 = fit_of fmin s2.
Proof.
  intros E. unfold fit_of, _gaussLike. rewrite E. reflexivity.
Qed.

Lemma fitted_idem (self : bgFinder F) :
  fitted fmin (fitted fmin self) = fitted fmin self.
Proof.
  unfold fitted at 1 3. simpl.
  rewrite (fit_of_data (fitted fmin self) self); reflexivity.
Qed.

Ltac by_name :=
  repeat match goal with
         | |- context [String.eqb ?m ?s] =>
             let E := fresh "E" in
             destruct (String.eqb_spec m s) as [E|E];
             [try discriminate E; try subst m | try congruence]
         end.

Lemma body_state (self_call : string -> option F -> action F F)
    (gaussStdLimit : F) (backupMode : string) (inp : option F) :
  (forall m p self, snd (self_call m p (fitted fmin self)) = fitted fmin self) ->
  forall self,
    snd (smartBackground_body fmin self_call gaussStdLimit backupMode inp self)
    = fitted fmin self.
Proof.
  intros Hcall self. unfold smartBackground_body, bind.
  rewrite gaussFit_run. unfold get_gauss. simpl gauss. cbv iota beta.
  destruct (fit_of fmin self) as [g s] eqn:Efit.
  destruct (num.greater _ _); [|reflexivity].
  assert (Hinp : forall c : action F F,
             (forall s0, snd (c (fitted fmin s0)) = fitted fmin s0) ->
             snd (match c (fitted fmin self) with
                  | (Ok _, self') =>
                      match self_call backupMode None self' with
                      | (Ok a, self'') => ret a self''
                      | (Raise e, self'') => (Raise e, self'')
                      end
                  | (Raise e, self') => (Raise e, self')
                  end) = fitted fmin self).
  { intros c Hc. specialize (Hc self).
    destruct (c (fitted fmin self)) as [[a|e] s1]; simpl in Hc; subst; auto.
    specialize (Hcall backupMode None self).
    destruct (self_call backupMode None (fitted fmin self)) as [[a'|e'] s2];
      simpl in *; auto. }
  destruct inp as [i|].
  - apply Hinp. intros s0. apply Hcall.
  - apply (Hinp (ret g)). intros s0. reflexivity.
Qed.

Lemma call_depth_state (depth : nat) :
  forall method inp self,
    snd (call_depth fmin depth method inp self)
    = if negb (Nat.eqb depth 0) && stores_fit method
      then fitted fmin self else self.
Proof.
  induction depth as [|d IH]; intros method inp self; [reflexivity|].
  unfold stores_fit. simpl call_depth. simpl negb. cbv beta.
  by_name; simpl andb; simpl orb; cbv iota; try reflexivity.
  - apply (read_only_bind (_stats _) _);
      [apply read_only_stats|intros ?; apply read_only_ret].
  - apply body_state. intros m p s0. rewrite IH.
    destruct (_ && _); [apply fitted_idem|reflexivity].
Qed.

(** Deeper nesting than two levels changes nothing: the recursion of the
    source always stops there. *)
Lemma call_depth_stable (d : nat) (method : string) (inp : option F) :
  call_depth fmin (S (S d)) method inp = call_depth fmin 2 method inp.
Proof.
  simpl. by_name; reflexivity.
Qed.

(** Line 70 of the source: [self('smart', inp)] is [self.smartBackground()]. *)
Lemma call_smart (inp : option F) :
  __call__ fmin "smart" inp
  = smartBackground fmin (num.lit 11 10) "fraserMode" None.
Proof. reflexivity. Qed.

End Dispatcher.

(** ** The order law on the two instances *)

Lemma SFcompare_swap (x y : SpecFloat.spec_float) :
  SpecFloat.SFcompare y x = option_map CompOpp (SpecFloat.SFcompare x y).
Proof.
  destruct x as [sx| sx| |sx mx ex], y as [sy| sy| |sy my ey]; simpl;
    try reflexivity;
    try (destruct sx; reflexivity); try (destruct sy; reflexivity);
    try (destruct sx, sy; reflexivity).
  destruct sx, sy; simpl; try reflexivity;
    rewrite (Z.compare_antisym ex ey);
    destruct (ex ?= ey)%Z; simpl; try reflexivity;
    pose proof (Pos.compare_cont_antisym mx my Eq) as P; simpl in P;
    rewrite <- P; destruct (Pos.compare_cont Eq mx my); reflexivity.
Qed.

Lemma float_leb_not_gt (x y : PrimFloat.float) :
  PrimFloat.leb x y = true -> PrimFloat.ltb y x = false.
Proof.
  rewrite FloatAxioms.leb_spec, FloatAxioms.ltb_spec.
  unfold SpecFloat.SFleb, SpecFloat.SFltb.
  rewrite (SFcompare_swap (FloatOps.Prim2SF x) (FloatOps.Prim2SF y)).
  destruct (SpecFloat.SFcompare (FloatOps.Prim2SF x) (FloatOps.Prim2SF y))
    as [[ | | ]|]; simpl; congruence.
Qed.

#[global] Instance float64_ordered : num.Ordered PrimFloat.float.
Proof. constructor. exact float_leb_not_gt. Qed.


(** ** The claims on the dispatcher and the adaptive estimator *)

Section Claims.
Context {F : Type} `{num.Float F}.
Variable fmin : (F * F -> F) -> F * F -> F * F.

Lemma bind_ret_r {A} (c : action F A) (self : bgFinder F) :
  bind c (fun a => ret a) self = c self.
Proof.
  unfold bind, ret. destruct (c self) as [[a|e] s]; reflexivity.
Qed.

Lemma call_state (method : string) (inp : option F) (self : bgFinder F) :
  snd (__call__ fmin method inp self)
  = if stores_fit method then fitted fmin self else self.
Proof. unfold __call__. rewrite call_depth_state. reflexivity. Qed.

Lemma call_fitted_state (method : string) (inp : option F) (self : bgFinder F) :
  snd (__call__ fmin method inp (fitted fmin self)) = fitted fmin self.
Proof.
  rewrite call_state. destruct (stores_fit method);
    [apply fitted_idem|reflexivity].
Qed.

(** C9: every estimator operation leaves [self.data] unchanged; the only
    attribute ever written is [self.gauss], and only by gaussFit, by
    smartBackground and by the dispatcher on "gaussFit" and "smart", which
    overwrite it with the fit of the sample.  The other operations return
    [self] as they found it. *)
Theorem estimators_frame (self : bgFinder F) :
  snd (median self) = self
  /\ snd (mean self) = self
  /\ (forall nbins, snd (histMode nbins self) = self)
  /\ (forall multi, snd (fraserMode multi self) = self)
  /\ snd (gaussFit fmin self) = fitted fmin self
  /\ (forall gaussStdLimit backupMode inp,
        snd (smartBackground fmin gaussStdLimit backupMode inp self)
        = fitted fmin self)
  /\ (forall method inp,
        snd (__call__ fmin method inp self)
        = if stores_fit method then fitted fmin self else self)
  /\ data (fitted fmin self) = data self.
Proof.
  repeat split; try reflexivity.
  - intros nbins. apply read_only_histMode.
  - intros l b i. unfold smartBackground. apply body_state.
    intros m p s0. apply call_fitted_state.
  - intros m p. apply call_state.
Qed.

(** C10: the dispatcher's optional parameter has no effect on "median",
    "mean", "gaussFit" and "smart"; for "smart" it is not forwarded: the
    adaptive estimator runs with its own defaults and no parameter. *)
Theorem call_ignores_parameter (p : F) :
  __call__ fmin "median" (Some p) = __call__ fmin "median" None
  /\ __call__ fmin "mean" (Some p) = __call__ fmin "mean" None
  /\ __call__ fmin "gaussFit" (Some p) = __call__ fmin "gaussFit" None
  /\ __call__ fmin "smart" (Some p) = __call__ fmin "smart" None
  /\ __call__ fmin "smart" (Some p)
     = smartBackground fmin (num.lit 11 10) "fraserMode" None.
Proof. repeat split. Qed.

(** C6: the dispatcher raises (ValueError) on a name outside the six it
    knows; on "histMode" and "fraserMode" with a parameter it is the direct
    method with that parameter, and without one the direct method at 50 bins
    and at multi = 0.1, which are the direct methods' own defaults; on the
    other four names it is the direct method. *)
Theorem call_dispatch (method : string) (inp : option F) (v : F) :
  (~ In method known_methods ->
   forall self, __call__ fmin method inp self = (Raise ValueError, self))
  /\ __call__ fmin "histMode" (Some v) = histMode (Some v)
  /\ __call__ fmin "fraserMode" (Some v) = fraserMode (Some v)
  /\ __call__ fmin "histMode" None = histMode (Some (num.of_int 50))
  /\ __call__ fmin "fraserMode" None = fraserMode (Some (num.lit 1 10))
  /\ histMode None = histMode (Some (num.of_int 50))
  /\ fraserMode None = fraserMode (Some (num.lit 1 10))
  /\ __call__ fmin "median" inp = median
  /\ __call__ fmin "mean" inp = mean
  /\ __call__ fmin "gaussFit" inp = gaussFit fmin
  /\ __call__ fmin "smart" inp
     = smartBackground fmin (num.lit 11 10) "fraserMode" None.
Proof.
  split; [|repeat split].
  intros Hm self. unfold __call__. simpl call_depth.
  unfold known_methods in Hm. simpl in Hm.
  repeat match goal with
         | |- context [String.eqb ?m ?s] =>
             let E := fresh "E" in
             destruct (String.eqb_spec m s) as [E|E];
             [exfalso; intuition congruence|]
         end.
  reflexivity.
Qed.

End Claims.

Section Adaptive.
Context {F : Type} `{num.Ordered F}.
Variable fmin : (F * F -> F) -> F * F -> F * F.

(** What [smartBackground] does once the fit is stored. *)
Lemma smartBackground_unfold (gaussStdLimit : F) (backupMode : string)
    (inp : option F) (self : bgFinder F) :
  smartBackground fmin gaussStdLimit backupMode inp self
  = if num.greater (ratio (fit_of fmin self)) gaussStdLimit then
      match inp with
      | Some _ =>
          match __call__ fmin backupMode inp (fitted fmin self) with
          | (Ok _, self') => __call__ fmin backupMode None self'
          | (Raise e, self') => (Raise e, self')
          end
      | None => __call__ fmin backupMode None (fitted fmin self)
      end
    else (Ok (fst (fit_of fmin self)), fitted fmin self).
Proof.
  unfold smartBackground, smartBackground_body. unfold bind at 1.
  rewrite gaussFit_run. unfold bind at 1. unfold get_gauss at 1.
  simpl gauss. cbv iota beta. unfold ratio.
  destruct (fit_of fmin self) as [g s]. simpl fst. simpl snd.
  destruct (num.greater _ _); [|reflexivity].
  destruct inp as [i|].
  - unfold bind at 1.
    destruct (__call__ fmin backupMode (Some i) (fitted fmin self))
      as [[a|e] s1]; [|reflexivity].
    apply bind_ret_r.
  - unfold bind at 1. unfold ret at 1. apply bind_ret_r.
Qed.

(** C1: when the fitted mean is positive, the adaptive estimator returns the
    fitted mean if std / sqrt(mean) <= gaussStdLimit, and if
    std / sqrt(mean) > gaussStdLimit it returns what the dispatcher returns
    for the backup method on the same sample (with the fit stored): the
    call without parameter, or, when a parameter was given and the call
    with it raised, that exception. *)
Theorem smartBackground_threshold (gaussStdLimit : F) (backupMode : string)
    (inp : option F) (self : bgFinder F) :
  num.greater (fst (fit_of fmin self)) (num.of_int 0) = true ->
  (num.less_equal (ratio (fit_of fmin self)) gaussStdLimit = true ->
   smartBackground fmin gaussStdLimit backupMode inp self
   = (Ok (fst (fit_of fmin self)), fitted fmin self))
  /\ (num.greater (ratio (fit_of fmin self)) gaussStdLimit = true ->
      smartBackground fmin gaussStdLimit backupMode inp self
      = __call__ fmin backupMode None (fitted fmin self)
      \/ exists e,
          inp <> None
          /\ __call__ fmin backupMode inp (fitted fmin self)
             = (Raise e, fitted fmin self)
          /\ smartBackground fmin gaussStdLimit backupMode inp self
             = (Raise e, fitted fmin self)).
Proof.
  intros _. rewrite smartBackground_unfold. split.
  - intros Hle. unfold num.greater.
    rewrite (num.less_equal_not_greater _ _ Hle). reflexivity.
  - intros Hgt. rewrite Hgt. destruct inp as [i|]; [|left; reflexivity].
    pose proof (call_fitted_state fmin backupMode (Some i) self) as Hs.
    destruct (__call__ fmin backupMode (Some i) (fitted fmin self))
      as [[a|e] s1]; simpl in Hs; subst s1.
    + left; reflexivity.
    + right. exists e. repeat split. discriminate.
Qed.

End Adaptive.

(** ** The dispatcher and the adaptive estimator on float64 samples *)

Section OnFloat64.
Import PrimFloat.

Lemma call_dispatch_witness :
  ~ In "bogus" known_methods
  /\ __call__ (fmin_converged Examples.quiet) "bogus" None
       (__init__ Examples.quiet)
     = (Raise ValueError, __init__ Examples.quiet).
Proof.
  assert (Hm : ~ In "bogus" known_methods).
  { unfold known_methods. simpl. intuition discriminate. }
  split; [exact Hm|].
  exact (proj1 (call_dispatch (fmin_converged Examples.quiet) "bogus" None
                  (num.of_int 0)) Hm (__init__ Examples.quiet)).
Defined.

Lemma smartBackground_threshold_witness :
  (num.greater (fst (fit_of (fmin_converged Examples.quiet)
                       (__init__ Examples.quiet))) (num.of_int 0) = true
   /\ num.less_equal (ratio (fit_of (fmin_converged Examples.quiet)
                               (__init__ Examples.quiet)))
        (num.lit 11 10) = true
   /\ fst (smartBackground (fmin_converged Examples.quiet) (num.lit 11 10)
             "fraserMode" None (__init__ Examples.quiet))
      = Ok 100%float)
  /\ (num.greater (fst (fit_of (fmin_converged Examples.contaminated)
                          (__init__ Examples.contaminated)))
        (num.of_int 0) = true
      /\ num.greater (ratio (fit_of (fmin_converged Examples.contaminated)
                               (__init__ Examples.contaminated)))
           (num.lit 11 10) = true
      /\ fst (smartBackground (fmin_converged Examples.contaminated)
                (num.lit 11 10) "fraserMode" None
                (__init__ Examples.contaminated))
         = Ok 6.5%float).
Proof.
  split.
  - assert (Hg : num.greater (fst (fit_of (fmin_converged Examples.quiet)
                       (__init__ Examples.quiet))) (num.of_int 0) = true)
      by (vm_compute; reflexivity).
    assert (Hr : num.less_equal (ratio (fit_of (fmin_converged Examples.quiet)
                               (__init__ Examples.quiet)))
        (num.lit 11 10) = true) by (vm_compute; reflexivity).
    split; [exact Hg|split; [exact Hr|]].
    rewrite (proj1 (smartBackground_threshold (fmin_converged Examples.quiet)
                      (num.lit 11 10) "fraserMode" None
                      (__init__ Examples.quiet) Hg) Hr).
    vm_compute. reflexivity.
  - assert (Hg : num.greater (fst (fit_of (fmin_converged Examples.contaminated)
                       (__init__ Examples.contaminated))) (num.of_int 0) = true)
      by (vm_compute; reflexivity).
    assert (Hr : num.greater (ratio (fit_of (fmin_converged Examples.contaminated)
                               (__init__ Examples.contaminated)))
        (num.lit 11 10) = true) by (vm_compute; reflexivity).
    split; [exact Hg|split; [exact Hr|]].
    destruct (proj2 (smartBackground_threshold
                       (fmin_converged Examples.contaminated)
                       (num.lit 11 10) "fraserMode" None
                       (__init__ Examples.contaminated) Hg) Hr)
      as [E|[e [Hn _]]].
    + rewrite E. vm_compute. reflexivity.
    + exfalso. apply Hn. reflexivity.
Defined.

End OnFloat64.

(** ** The mode of the quantized sample *)

Section SortFacts.

Lemma insert_sorted_In {A} (lt : A -> A -> bool) (x z : A) (l : list A) :
  In z (insert_sorted lt x l) <-> z = x \/ In z l.
Proof.
  induction l as [|y t IH]; simpl.
  - intuition.
  - destruct (lt y x); simpl; rewrite ?IH; intuition.
Qed.

Lemma sort_by_In {A} (lt : A -> A -> bool) (z : A) (l : list A) :
  In z (sort_by lt l) <-> In z l.
Proof.
  induction l as [|x t IH]; simpl; [tauto|].
  rewrite insert_sorted_In, IH. intuition.
Qed.

Lemma insert_sorted_le (x : Z) (l : list Z) :
  StronglySorted Z.le l -> StronglySorted Z.le (insert_sorted Z.ltb x l).
Proof.
  induction 1 as [|y t Ht IH Hy]; simpl.
  - repeat constructor.
  - destruct (Z.ltb_spec y x) as [Hlt|Hge].
    + constructor; [exact IH|].
      apply Forall_forall. intros z Hz.
      apply insert_sorted_In in Hz. destruct Hz as [->|Hz]; [lia|].
      rewrite Forall_forall in Hy. auto.
    + constructor; [constructor; assumption|].
      constructor; [lia|].
      rewrite Forall_forall in Hy |- *. intros z Hz.
      specialize (Hy z Hz). lia.
Qed.

Lemma sort_by_le (l : list Z) : StronglySorted Z.le (sort_by Z.ltb l).
Proof.
  induction l as [|x t IH]; simpl; [constructor|].
  apply insert_sorted_le, IH.
Qed.

Lemma dedup_adjacent_In (z : Z) (l : list Z) :
  In z (num.dedup_adjacent l) <-> In z l.
Proof.
  induction l as [|x t IH]; [tauto|].
  destruct t as [|y t']; [tauto|].
  change (num.dedup_adjacent (x :: y :: t'))
    with (if x =? y then num.dedup_adjacent (y :: t')
          else x :: num.dedup_adjacent (y :: t')).
  destruct (Z.eqb_spec x y) as [->|Hne].
  - rewrite IH. simpl. tauto.
  - simpl In at 1. rewrite IH. simpl. tauto.
Qed.

Lemma dedup_adjacent_lt (l : list Z) :
  StronglySorted Z.le l -> StronglySorted Z.lt (num.dedup_adjacent l).
Proof.
  induction 1 as [|x t Ht IH Hx]; [constructor|].
  destruct t as [|y t']; [repeat constructor|].
  change (num.dedup_adjacent (x :: y :: t'))
    with (if x =? y then num.dedup_adjacent (y :: t')
          else x :: num.dedup_adjacent (y :: t')).
  destruct (Z.eqb_spec x y) as [->|Hne]; [exact IH|].
  constructor; [exact IH|].
  apply Forall_forall. intros z Hz.
  apply (proj1 (dedup_adjacent_In z (y :: t'))) in Hz.
  rewrite Forall_forall in Hx. pose proof (Hx z Hz) as Hxz.
  destruct Hz as [Hz|Hz]; [lia|].
  inversion Ht as [|? ? _ Hy]; subst. rewrite Forall_forall in Hy.
  pose proof (Hx y (or_introl eq_refl)). specialize (Hy z Hz). lia.
Qed.

Lemma unique_In (z : Z) (a : list Z) : In z (num.unique a) <-> In z a.
Proof. unfold num.unique. rewrite dedup_adjacent_In. apply sort_by_In. Qed.

Lemma unique_lt (a : list Z) : StronglySorted Z.lt (num.unique a).
Proof. apply dedup_adjacent_lt, sort_by_le. Qed.

End SortFacts.

Section ModeFacts.
Variable a : list Z.

Lemma count_nonneg (q : Z) : 0 <= stats.count q a.
Proof. unfold stats.count, len. lia. Qed.

Lemma count_pos (q : Z) : 0 < stats.count q a <-> In q a.
Proof.
  unfold stats.count, len. split.
  - intros Hc. destruct (filter (Z.eqb q) a) as [|z t] eqn:E;
      [simpl in Hc; lia|].
    assert (Hz : In z (filter (Z.eqb q) a)) by (rewrite E; left; reflexivity).
    apply filter_In in Hz. destruct Hz as [Hz Hq].
    apply Z.eqb_eq in Hq. subst. exact Hz.
  - intros Hq.
    assert (Hz : In q (filter (Z.eqb q) a))
      by (apply filter_In; split; [exact Hq|apply Z.eqb_refl]).
    destruct (filter (Z.eqb q) a); [contradiction|simpl; lia].
Qed.

Lemma mode_loop (l : list Z) :
  forall seen m c,
    StronglySorted Z.lt l ->
    (forall p q, In p seen -> In q l -> p < q) ->
    (forall q, In q l -> 0 < stats.count q a) ->
    mode_so_far a seen m c ->
    mode_so_far a (seen ++ l) (fst (fold_left (stats.step a) l (m, c)))
                (snd (fold_left (stats.step a) l (m, c))).
Proof.
  induction l as [|x l IH]; intros seen m c Hsort Hlt Hpos Hinv.
  - rewrite app_nil_r. exact Hinv.
  - simpl fold_left. unfold stats.step at 2.
    replace (seen ++ x :: l) with ((seen ++ [x]) ++ l)
      by (rewrite <- app_assoc; reflexivity).
    inversion Hsort as [|? ? Hsort' Hx]; subst.
    rewrite Forall_forall in Hx.
    assert (Hlt' : forall p q, In p (seen ++ [x]) -> In q l -> p < q).
    { intros p q Hp Hq. apply in_app_or in Hp.
      destruct Hp as [Hp|[->|[]]]; [|apply Hx, Hq].
      apply Hlt; [exact Hp|right; exact Hq]. }
    assert (Hpos' : forall q, In q l -> 0 < stats.count q a)
      by (intros q Hq; apply Hpos; right; exact Hq).
    pose proof (Hpos x (or_introl eq_refl)) as Hcx.
    destruct (Z.ltb_spec c (stats.count x a)) as [Hc|Hc];
      apply IH; try assumption.
    + right. split; [apply in_or_app; right; left; reflexivity|].
      split; [reflexivity|]. intros q Hq. apply in_app_or in Hq.
      destruct Hq as [Hq|[->|[]]]; [|lia].
      destruct Hinv as [[-> _]|[_ [_ Hall]]]; [contradiction|].
      specialize (Hall q Hq). lia.
    + destruct Hinv as [[_ ->]|[Hm [Hcm Hall]]]; [lia|].
      right. split; [apply in_or_app; left; exact Hm|].
      split; [exact Hcm|]. intros q Hq. apply in_app_or in Hq.
      destruct Hq as [Hq|[->|[]]]; [apply Hall, Hq|].
      split; [lia|]. intros _.
      specialize (Hlt m q Hm (or_introl eq_refl)). lia.
Qed.

(** [stats.mode] on a non-empty array: one value, which occurs in the array,
    is at least as frequent as every other, and is the smallest of the
    values as frequent as itself. *)
Lemma mode_spec :
  a <> [] ->
  exists m,
    stats.mode a = [m]
    /\ In m a
    /\ (forall q, stats.count q a <= stats.count m a)
    /\ (forall q, In q a -> stats.count q a = stats.count m a -> m <= q).
Proof.
  intros Hne.
  pose proof (mode_loop (num.unique a) [] 0 0 (unique_lt a)) as Hloop.
  simpl app in Hloop.
  destruct (fold_left (stats.step a) (num.unique a) (0, 0)) as [m c] eqn:E.
  simpl in Hloop.
  destruct Hloop as [[Hnil _]|[Hm [Hc Hall]]].
  - intros p q [].
  - intros q Hq. apply count_pos, unique_In, Hq.
  - left; split; reflexivity.
  - exfalso. destruct a as [|z t]; [congruence|].
    assert (Hz : In z (num.unique (z :: t)))
      by (apply unique_In; left; reflexivity).
    rewrite Hnil in Hz. contradiction.
  - exists m. split; [|split; [apply unique_In, Hm|split]].
    + unfold stats.mode. destruct a; [congruence|]. rewrite E. reflexivity.
    + intros q. destruct (Z.ltb_spec 0 (stats.count q a)) as [Hp|Hp].
      * apply count_pos, unique_In in Hp. specialize (Hall q Hp). lia.
      * pose proof (count_nonneg m). lia.
    + intros q Hq Heq. apply unique_In in Hq. specialize (Hall q Hq).
      apply Hall. lia.
Qed.

End ModeFacts.

(** ** The Quantized-Mode estimator *)

Section IndexFacts.
Context {A : Type}.

Lemma len_app (l1 l2 : list A) : len (l1 ++ l2) = len l1 + len l2.
Proof. unfold len. rewrite length_app. lia. Qed.

Lemma getitem_middle (pre : list A) (x : A) (t : list A) :
  getitem (pre ++ x :: t) (len pre) = Ok x.
Proof.
  unfold getitem.
  assert (Hp : 0 <= len pre) by (unfold len; lia).
  destruct (Z.ltb_spec (len pre) 0) as [Hneg|_]; [lia|].
  rewrite len_app.
  assert (Ht : 0 < len (x :: t)) by (unfold len; simpl; lia).
  destruct (Z.leb_spec 0 (len pre)) as [_|Hneg]; [|lia].
  destruct (Z.ltb_spec (len pre) (len pre + len (x :: t))) as [_|Hge]; [|lia].
  simpl. unfold len. rewrite Nat2Z.id.
  rewrite nth_error_app2 by lia. rewrite Nat.sub_diag. reflexivity.
Qed.

Lemma take_where_from (a : list A) :
  forall (pre : list A) (mask : list bool),
    List.length a = List.length mask ->
    take (pre ++ a) (where_from (len pre) mask)
    = Ok (map fst (filter snd (combine a mask))).
Proof.
  induction a as [|x a IH]; intros pre mask Hlen.
  - destruct mask; [reflexivity|discriminate].
  - destruct mask as [|b mask]; [discriminate|].
    injection Hlen as Hlen.
    assert (Hnext : take (pre ++ x :: a) (where_from (len pre + 1) mask)
                    = Ok (map fst (filter snd (combine a mask)))).
    { replace (pre ++ x :: a) with ((pre ++ [x]) ++ a)
        by (rewrite <- app_assoc; reflexivity).
      replace (len pre + 1) with (len (pre ++ [x]))
        by (rewrite len_app; reflexivity).
      apply IH, Hlen. }
    simpl where_from. destruct b; simpl.
    + rewrite getitem_middle. simpl. rewrite Hnext. reflexivity.
    + exact Hnext.
Qed.

Lemma take_where (a : list A) (mask : list bool) :
  List.length a = List.length mask ->
  take a (where_ mask) = Ok (map fst (filter snd (combine a mask))).
Proof. intros Hlen. apply (take_where_from a [] mask Hlen). Qed.

Lemma filter_combine_map {B} (f : B -> bool) (a : list A) :
  forall y : list B,
    map fst (filter snd (combine a (map f y)))
    = map fst (filter (fun p => f (snd p)) (combine a y)).
Proof.
  induction a as [|x a IH]; intros [|q y]; simpl; try reflexivity.
  destruct (f q); simpl; rewrite IH; reflexivity.
Qed.

End IndexFacts.

Section QuantizedMode.
Context {F : Type} `{num.Float F}.

(** C3, as the code has it: on a non-empty sample the Quantized-Mode
    estimator returns the median of the original values at exactly the
    indices whose quantized value equals the most frequent quantized value,
    ties between equally frequent values going to the smallest; the quantized
    value is the integer cast of value * multi, which drops the fraction
    (rounds toward zero) and is not the floor on negative products. *)
Theorem fraserMode_median_of_mode (multi : F) (self : bgFinder F) :
  data self <> [] ->
  exists m,
    In m (quantize multi (data self))
    /\ (forall q, stats.count q (quantize multi (data self))
                  <= stats.count m (quantize multi (data self)))
    /\ (forall q, In q (quantize multi (data self)) ->
                  stats.count q (quantize multi (data self))
                  = stats.count m (quantize multi (data self)) -> m <= q)
    /\ fraserMode (Some multi) self
       = (Ok (num.median
                (values_at (data self) (quantize multi (data self)) m)),
          self).
Proof.
  intros Hne.
  assert (Hq : quantize multi (data self) <> []).
  { unfold quantize. destruct (data self); [congruence|discriminate]. }
  destruct (mode_spec (quantize multi (data self)) Hq)
    as [m [Hmode [Hin [Hmax Hmin]]]].
  exists m. repeat split; try assumption.
  unfold fraserMode, default, _fraserMode.
  fold (quantize multi (data self)). rewrite Hmode.
  unfold equal_broadcast. rewrite take_where.
  - simpl. unfold values_at.
    rewrite (filter_combine_map (fun q => q =? m)). reflexivity.
  - unfold quantize. rewrite !length_map. reflexivity.
Qed.

End QuantizedMode.

Section QuantizedModeOnFloat64.
Import PrimFloat.

Lemma fraserMode_median_of_mode_witness :
  data (__init__ Examples.signed) <> []
  /\ exists m,
      In m (quantize 0.5%float Examples.signed)
      /\ fraserMode (Some 0.5%float) (__init__ Examples.signed)
         = (Ok (num.median
                  (values_at Examples.signed
                     (quantize 0.5%float Examples.signed) m)),
            __init__ Examples.signed).
Proof.
  assert (Hne : data (__init__ Examples.signed) <> []) by discriminate.
  split; [exact Hne|].
  destruct (fraserMode_median_of_mode 0.5%float (__init__ Examples.signed) Hne)
    as [m [Hin [_ [_ E]]]].
  exists m. split; [exact Hin|exact E].
Defined.

(** On the sample -5, -6, 5 with multi = 0.1 the products are -0.5, -0.6 and
    0.5.  The cast sends all three to 0, so the estimator returns the median
    of the whole sample, -5; the floor sends them to -1, -1 and 0, for which
    the median of the values labelled with the mode is -5.5. *)
Lemma fraserMode_truncates_not_floors :
  quantize (num.lit 1 10) Examples.signed = [0; 0; 0]
  /\ quantize_floor (num.lit 1 10) Examples.signed = [-1; -1; 0]
  /\ fst (fraserMode None (__init__ Examples.signed)) = Ok (-5)%float
  /\ fraserMode_by_floor (num.lit 1 10) Examples.signed = (-5.5)%float.
Proof. repeat split; vm_compute; reflexivity. Qed.

(** C2 on the code: on the sample 1, 6, 7, 8, 400, whenever the fit the
    optimizer returns makes the contamination test fire (the converged fit,
    mean 84.4 and deviation 157.8, does), [smartBackground(inp=0.2)] returns
    6.5, which is [fraserMode(0.1)], the backup method at its own default;
    the backup method at the supplied parameter, [fraserMode(0.2)], is 7. *)
Theorem smartBackground_drops_parameter
    (fmin : (float * float -> float) -> float * float -> float * float) :
  num.greater (ratio (fit_of fmin (__init__ Examples.contaminated)))
    (num.lit 11 10) = true ->
  fst (smartBackground fmin (num.lit 11 10) "fraserMode" (Some Examples.fifth)
         (__init__ Examples.contaminated)) = Ok 6.5%float
  /\ fst (fraserMode (Some Examples.fifth) (__init__ Examples.contaminated))
     = Ok 7%float
  /\ fst (fraserMode None (__init__ Examples.contaminated)) = Ok 6.5%float.
Proof.
  intros Hfire. split; [|split; vm_compute; reflexivity].
  rewrite smartBackground_unfold, Hfire.
  pose proof (call_fitted_state fmin "fraserMode" (Some Examples.fifth)
                (__init__ Examples.contaminated)) as Hs.
  assert (Hv : fst (__call__ fmin "fraserMode" (Some Examples.fifth)
                      (fitted fmin (__init__ Examples.contaminated)))
               = Ok 7%float) by (vm_compute; reflexivity).
  destruct (__call__ fmin "fraserMode" (Some Examples.fifth)
              (fitted fmin (__init__ Examples.contaminated))) as [r s1].
  simpl in Hs, Hv. subst. vm_compute. reflexivity.
Qed.

Lemma smartBackground_drops_parameter_witness :
  num.greater (ratio (fit_of (fmin_converged Examples.contaminated)
                        (__init__ Examples.contaminated)))
    (num.lit 11 10) = true
  /\ fst (smartBackground (fmin_converged Examples.contaminated)
            (num.lit 11 10) "fraserMode" (Some Examples.fifth)
            (__init__ Examples.contaminated)) = Ok 6.5%float.
Proof.
  assert (Hfire : num.greater (ratio (fit_of (fmin_converged Examples.contaminated)
                        (__init__ Examples.contaminated)))
    (num.lit 11 10) = true) by (vm_compute; reflexivity).
  split; [exact Hfire|].
  exact (proj1 (smartBackground_drops_parameter
                  (fmin_converged Examples.contaminated) Hfire)).
Defined.

End QuantizedModeOnFloat64.

(** ** The Histogram-Mode estimator *)

Section ArrayFacts.
Context {A : Type}.

Lemma len_nonneg (l : list A) : 0 <= len l.
Proof. unfold len. lia. Qed.

Lemma length_insert_sorted (lt : A -> A -> bool) (x : A) (l : list A) :
  List.length (insert_sorted lt x l) = S (List.length l).
Proof.
  induction l as [|y t IH]; simpl; [reflexivity|].
  destruct (lt y x); simpl; rewrite ?IH; reflexivity.
Qed.

Lemma length_sort_by (lt : A -> A -> bool) (l : list A) :
  List.length (sort_by lt l) = List.length l.
Proof.
  induction l as [|x t IH]; simpl; [reflexivity|].
  rewrite length_insert_sorted, IH. reflexivity.
Qed.

Lemma getitem_in_range (d : A) (l : list A) (i : Z) :
  0 <= i < len l -> getitem l i = Ok (item d l i).
Proof.
  intros Hi. unfold getitem, item.
  destruct (Z.ltb_spec i 0) as [Hneg|_]; [lia|].
  destruct (Z.leb_spec 0 i) as [_|Hneg]; [|lia].
  destruct (Z.ltb_spec i (len l)) as [_|Hge]; [|lia].
  simpl. unfold len in Hi.
  rewrite (nth_error_nth' l d) by lia. reflexivity.
Qed.

Lemma setitem_in_range (l : list A) (i : Z) (a : A) :
  0 <= i < len l -> setitem l i a = Ok (replace_nth (Z.to_nat i) a l).
Proof.
  intros Hi. unfold setitem.
  destruct (Z.ltb_spec i 0) as [Hneg|_]; [lia|].
  destruct (Z.leb_spec 0 i) as [_|Hneg]; [|lia].
  destruct (Z.ltb_spec i (len l)) as [_|Hge]; [|lia].
  reflexivity.
Qed.

Lemma length_replace_nth (n : nat) (a : A) (l : list A) :
  List.length (replace_nth n a l) = List.length l.
Proof.
  revert n. induction l as [|h t IH]; intros [|n]; simpl; try reflexivity.
  rewrite IH. reflexivity.
Qed.

Lemma nth_replace_nth_eq (d : A) (n : nat) (a : A) (l : list A) :
  (n < List.length l)%nat -> nth n (replace_nth n a l) d = a.
Proof.
  revert n. induction l as [|h t IH]; intros [|n] Hn; simpl in *;
    try lia; [reflexivity|].
  apply IH. lia.
Qed.

Lemma nth_replace_nth_neq (d : A) (n k : nat) (a : A) (l : list A) :
  n <> k -> nth n (replace_nth k a l) d = nth n l d.
Proof.
  revert n k. induction l as [|h t IH]; intros [|n] [|k] Hnk; simpl;
    try reflexivity; try congruence.
  apply IH. congruence.
Qed.

Lemma item_app_l (d : A) (l s : list A) (j : Z) :
  0 <= j < len l -> item d (l ++ s) j = item d l j.
Proof.
  intros Hj. unfold item. unfold len in Hj. apply app_nth1. lia.
Qed.

Lemma item_app_at (d : A) (l : list A) (x : A) (s : list A) :
  item d (l ++ x :: s) (len l) = x.
Proof.
  unfold item, len. rewrite Nat2Z.id.
  rewrite app_nth2 by lia. rewrite Nat.sub_diag. reflexivity.
Qed.

End ArrayFacts.

Section ArgmaxFacts.

Lemma first_max_snoc_new (pre : list Z) (bi x : Z) :
  first_max pre bi -> item 0 pre bi < x ->
  first_max (pre ++ [x]) (len pre).
Proof.
  intros [Hbi [Hmax Hfirst]] Hx.
  pose proof (len_nonneg pre) as Hp.
  unfold first_max. rewrite len_app, item_app_at.
  change (len [x]) with 1. repeat split; try lia.
  - intros j Hj. destruct (Z.eq_dec j (len pre)) as [->|Hne].
    + rewrite item_app_at. lia.
    + rewrite item_app_l by lia. specialize (Hmax j). lia.
  - intros j Hj. rewrite item_app_l by lia. specialize (Hmax j). lia.
Qed.

Lemma first_max_snoc_old (pre : list Z) (bi x : Z) :
  first_max pre bi -> x <= item 0 pre bi ->
  first_max (pre ++ [x]) bi.
Proof.
  intros [Hbi [Hmax Hfirst]] Hx.
  unfold first_max. rewrite len_app.
  change (len [x]) with 1. rewrite (item_app_l 0 pre [x] bi) by lia.
  repeat split; try lia.
  - intros j Hj. destruct (Z.eq_dec j (len pre)) as [->|Hne].
    + rewrite item_app_at. lia.
    + rewrite item_app_l by lia. apply Hmax. lia.
  - intros j Hj. rewrite item_app_l by lia. apply Hfirst. lia.
Qed.

Lemma argmax_from_first_max (t : list Z) :
  forall (pre : list Z) (i best bi : Z),
    i = len pre -> best = item 0 pre bi -> first_max pre bi ->
    first_max (pre ++ t) (num.argmax_from i best bi t).
Proof.
  induction t as [|x t IH]; intros pre i best bi Hi Hbest Hfm.
  - rewrite app_nil_r. exact Hfm.
  - simpl num.argmax_from.
    replace (pre ++ x :: t) with ((pre ++ [x]) ++ t)
      by (rewrite <- app_assoc; reflexivity).
    assert (Hlen : i + 1 = len (pre ++ [x]))
      by (rewrite len_app; subst i; reflexivity).
    destruct (Z.ltb_spec best x) as [Hlt|Hge].
    + apply IH; [exact Hlen| |].
      * subst i. rewrite item_app_at. reflexivity.
      * subst i best. apply (first_max_snoc_new pre bi x Hfm Hlt).
    + apply IH; [exact Hlen| |].
      * destruct Hfm as [Hbi _]. rewrite item_app_l by lia. exact Hbest.
      * subst best. apply (first_max_snoc_old pre bi x Hfm Hge).
Qed.

(** [num.argmax] on a non-empty array returns the first index of the
    maximum. *)
Lemma argmax_first_max (b : list Z) :
  b <> [] -> exists am, num.argmax b = Ok am /\ first_max b am.
Proof.
  destruct b as [|x t]; [congruence|]. intros _.
  exists (num.argmax_from 1 x 0 t). split; [reflexivity|].
  apply (argmax_from_first_max t [x] 1 x 0); try reflexivity.
  unfold first_max. change (len [x]) with 1.
  repeat split; try lia.
  intros j Hj. replace j with 0 by lia. lia.
Qed.

End ArgmaxFacts.

Section HistogramFacts.

Lemma length_diff_cons (l : list Z) :
  forall x, List.length (num.diff (x :: l)) = List.length l.
Proof.
  induction l as [|y t IH]; intros x; [reflexivity|].
  change (num.diff (x :: y :: t)) with ((y - x) :: num.diff (y :: t)).
  cbn [List.length]. rewrite IH. reflexivity.
Qed.

Lemma length_diff_snoc (n : list Z) (z : Z) :
  List.length (num.diff (n ++ [z])) = List.length n.
Proof.
  destruct n as [|x n]; [reflexivity|].
  rewrite <- app_comm_cons, length_diff_cons, length_app. simpl. lia.
Qed.

(** Lines 101 and 102 of the source on a non-empty array of counts. *)
Lemma zero_ends (raw : list Z) :
  raw <> [] ->
  exists counts,
    rbind (setitem raw (len raw - 1) 0) (fun b => setitem b 0 0) = Ok counts
    /\ ends_zeroed raw counts.
Proof.
  intros Hne.
  assert (Hlen : 0 < len raw).
  { destruct raw; [congruence|unfold len; simpl; lia]. }
  exists (replace_nth 0 0 (replace_nth (Z.to_nat (len raw - 1)) 0 raw)).
  assert (Hl1 : len (replace_nth (Z.to_nat (len raw - 1)) 0 raw) = len raw)
    by (unfold len; rewrite length_replace_nth; reflexivity).
  split.
  - rewrite setitem_in_range by lia. simpl rbind.
    rewrite setitem_in_range by lia. reflexivity.
  - unfold ends_zeroed, item.
    assert (Hl2 : len (replace_nth 0 0
                         (replace_nth (Z.to_nat (len raw - 1)) 0 raw))
                  = len raw)
      by (unfold len; rewrite !length_replace_nth; reflexivity).
    rewrite Hl2. unfold len in *. repeat split.
    + change (Z.to_nat 0) with 0%nat. apply nth_replace_nth_eq.
      rewrite length_replace_nth. lia.
    + destruct (Nat.eq_dec (Z.to_nat (Z.of_nat (List.length raw) - 1)) 0)
        as [E|E].
      * rewrite E. apply nth_replace_nth_eq.
        rewrite length_replace_nth. lia.
      * rewrite nth_replace_nth_neq by exact E.
        apply nth_replace_nth_eq. lia.
    + intros j Hj. rewrite !nth_replace_nth_neq by lia. reflexivity.
Qed.

End HistogramFacts.

Section SortedSampleFacts.
Context {F : Type} `{num.Float F}.

Lemma length_filter_split {A} (f : A -> bool) (l : list A) :
  (List.length (filter (fun x => negb (f x)) l) + List.length (filter f l)
   = List.length l)%nat.
Proof.
  induction l as [|x t IH]; [reflexivity|].
  simpl. destruct (f x); simpl; lia.
Qed.

Lemma length_sort (a : list F) : List.length (num.sort a) = List.length a.
Proof.
  unfold num.sort. rewrite length_app, length_sort_by.
  apply length_filter_split.
Qed.

Lemma sort_In (x : F) (a : list F) : In x (num.sort a) <-> In x a.
Proof.
  unfold num.sort. rewrite in_app_iff, sort_by_In, !filter_In.
  destruct (num.isnan x); simpl; intuition congruence.
Qed.

Lemma sort_single (x : F) : num.sort [x] = [x].
Proof.
  unfold num.sort. simpl. destruct (num.isnan x); reflexivity.
Qed.

End SortedSampleFacts.

Section HistogramMode.
Context {F : Type} `{num.Float F}.

Lemma ahist_run (nbins : F) (self : bgFinder F) (edges : list F) :
  2 <= len (data self) ->
  num.arange (hist_lower (data self)) (hist_upper (data self))
    (bin_width nbins (data self)) = Ok edges ->
  _ahist nbins self
  = (Ok (raw_counts edges (data self), bin_width nbins (data self),
         hist_lower (data self)), self).
Proof.
  intros Hlen Har. unfold _ahist.
  assert (Hb : len (num.sort (data self)) = len (data self)).
  { unfold len. rewrite length_sort. reflexivity. }
  rewrite (getitem_in_range (num.of_int 0))
    by (rewrite Hb; Z.div_mod_to_equations; lia).
  rewrite (getitem_in_range (num.of_int 0))
    by (rewrite Hb; Z.div_mod_to_equations; lia).
  cbn [rbind].
  unfold bin_width, raw_counts, hist_lower, hist_upper in *.
  rewrite Har. reflexivity.
Qed.

Lemma ahist_short_sample (nbins : F) (self : bgFinder F) :
  len (data self) < 2 -> _ahist nbins self = (Raise IndexError, self).
Proof.
  intros Hlen. unfold _ahist.
  destruct (data self) as [|x [|y t]]; [reflexivity| |].
  - rewrite sort_single. reflexivity.
  - unfold len in Hlen. simpl in Hlen. lia.
Qed.

Lemma ahist_arange_raises (nbins : F) (self : bgFinder F) (e : exn) :
  2 <= len (data self) ->
  num.arange (hist_lower (data self)) (hist_upper (data self))
    (bin_width nbins (data self)) = Raise e ->
  _ahist nbins self = (Raise e, self).
Proof.
  intros Hlen Har. unfold _ahist.
  assert (Hb : len (num.sort (data self)) = len (data self)).
  { unfold len. rewrite length_sort. reflexivity. }
  rewrite (getitem_in_range (num.of_int 0))
    by (rewrite Hb; Z.div_mod_to_equations; lia).
  rewrite (getitem_in_range (num.of_int 0))
    by (rewrite Hb; Z.div_mod_to_equations; lia).
  cbn [rbind].
  unfold bin_width, raw_counts, hist_lower, hist_upper in *.
  rewrite Har. reflexivity.
Qed.

(** [_stats] on a sample of at least two elements whose array of bin edges
    is not empty: the mode is argmax * bin width + lower bound, for the first
    index at which the zeroed counts are largest. *)
Lemma stats_run (nbins : F) (self : bgFinder F) (edges : list F) :
  2 <= len (data self) ->
  num.arange (hist_lower (data self)) (hist_upper (data self))
    (bin_width nbins (data self)) = Ok edges ->
  edges <> [] ->
  exists counts am,
    ends_zeroed (raw_counts edges (data self)) counts
    /\ first_max counts am
    /\ exists sd,
        _stats nbins self
        = (Ok (num.add (num.multiply (num.of_int am)
                          (bin_width nbins (data self)))
                 (hist_lower (data self)), sd),
           self).
Proof.
  intros Hlen Har Hedges.
  assert (Hraw : raw_counts edges (data self) <> []).
  { intros E. apply (f_equal (@List.length Z)) in E.
    unfold raw_counts in E. rewrite length_diff_snoc in E.
    unfold num.searchsorted in E. rewrite length_map in E.
    destruct edges; [congruence|discriminate]. }
  destruct (zero_ends _ Hraw) as [counts [Hset Hz]].
  assert (Hc : counts <> []).
  { destruct Hz as [Hl _]. intros ->.
    destruct (raw_counts edges (data self)); [congruence|discriminate]. }
  destruct (argmax_first_max counts Hc) as [am [Ham Hfm]].
  exists counts, am. split; [exact Hz|split; [exact Hfm|]].
  unfold _stats. unfold bind at 1.
  rewrite (ahist_run nbins self edges Hlen Har).
  unfold lift, bind.
  destruct (setitem (raw_counts edges (data self))
              (len (raw_counts edges (data self)) - 1) 0) as [b1|e] eqn:E1;
    simpl in Hset; [|discriminate].
  rewrite Hset, Ham.
  rewrite (getitem_in_range 0) by (destruct Hfm as [Hr _]; exact Hr).
  eexists. reflexivity.
Qed.

(** C4, as the code has it: on a sample of at least two elements for which
    the array of bin edges, [num.arange(lower, upper, bin_width)], exists and
    is not empty, the Histogram-Mode estimator returns
    argmax_index * bin_width + lower, where lower and upper are the sorted
    sample at the indices len - 99*len/100 and len - max(1, len/100),
    bin_width = (upper - lower) / nbins, the counts have their first and
    last entries zeroed, and argmax_index is the first index at which the
    zeroed counts are largest. *)
Theorem histMode_argmax (nbins : F) (self : bgFinder F) (edges : list F) :
  2 <= len (data self) ->
  num.arange (hist_lower (data self)) (hist_upper (data self))
    (bin_width nbins (data self)) = Ok edges ->
  edges <> [] ->
  exists counts am,
    ends_zeroed (raw_counts edges (data self)) counts
    /\ first_max counts am
    /\ histMode (Some nbins) self
       = (Ok (num.add (num.multiply (num.of_int am)
                         (bin_width nbins (data self)))
                (hist_lower (data self))),
          self).
Proof.
  intros Hlen Har Hedges.
  destruct (stats_run nbins self edges Hlen Har Hedges)
    as [counts [am [Hz [Hfm [sd Hrun]]]]].
  exists counts, am. split; [exact Hz|split; [exact Hfm|]].
  unfold histMode, default, bind. rewrite Hrun. reflexivity.
Qed.

End HistogramMode.

Section HistogramModeOnFloat64.
Import PrimFloat.

Lemma histMode_argmax_witness :
  2 <= len (data (__init__ Examples.ten))
  /\ num.arange (hist_lower Examples.ten) (hist_upper Examples.ten)
       (bin_width 4%float Examples.ten) = Ok [2; 4; 6; 8]%float
  /\ exists counts am,
      ends_zeroed (raw_counts [2; 4; 6; 8]%float Examples.ten) counts
      /\ first_max counts am
      /\ histMode (Some 4%float) (__init__ Examples.ten)
         = (Ok (num.add (num.multiply (num.of_int am)
                           (bin_width 4%float Examples.ten))
                  (hist_lower Examples.ten)),
            __init__ Examples.ten).
Proof.
  assert (Hlen : 2 <= len (data (__init__ Examples.ten)))
    by (vm_compute; discriminate).
  assert (Har : num.arange (hist_lower (data (__init__ Examples.ten)))
                  (hist_upper (data (__init__ Examples.ten)))
                  (bin_width 4%float (data (__init__ Examples.ten)))
                = Ok [2; 4; 6; 8]%float) by (vm_compute; reflexivity).
  assert (Hne : [2; 4; 6; 8]%float <> []) by discriminate.
  split; [exact Hlen|split; [exact Har|]].
  exact (histMode_argmax 4%float (__init__ Examples.ten) [2; 4; 6; 8]%float
           Hlen Har Hne).
Defined.

(** The sample 1, 2 is neither empty nor constant, but with fewer than 100
    elements the lower bound is the second smallest value and the upper
    bound the largest: both are 2, the bin width is 0, the length of the
    edge array is 0/0, and [num.arange] raises. *)
Lemma histMode_fails_on_pair :
  Examples.pair = [1; 2]%float
  /\ hist_lower Examples.pair = 2%float
  /\ hist_upper Examples.pair = 2%float
  /\ bin_width (num.of_int 50) Examples.pair = 0%float
  /\ fst (histMode None (__init__ Examples.pair)) = Raise ValueError
  /\ fst (histMode (Some 50%float) (__init__ Examples.pair))
     = Raise ValueError.
Proof. repeat split; vm_compute; reflexivity. Qed.

End HistogramModeOnFloat64.


(** ** binary64 arithmetic, from the specification of its operations *)

Section Binary64Facts.
Import PrimFloat FloatOps FloatAxioms SpecFloat.

Lemma SFopp_involutive (f : spec_float) : SFopp (SFopp f) = f.
Proof. destruct f as [s|s| |s m e]; simpl; rewrite ?negb_involutive; reflexivity. Qed.

(** Rounding does not look at the sign. *)
Lemma binary_round_aux_negb (s : bool) (m e : Z) (l : location) :
  binary_round_aux prec emax (negb s) m e l
  = SFopp (binary_round_aux prec emax s m e l).
Proof.
  unfold binary_round_aux.
  destruct (shr_fexp prec emax m e l) as [mrs e'].
  destruct (shr_fexp prec emax _ e' loc_Exact) as [mrs'' e''].
  destruct (shr_m mrs''); try reflexivity.
  destruct (Z.leb e'' (emax - prec)); reflexivity.
Qed.

Lemma binary_round_negb (s : bool) (m : positive) (e : Z) :
  binary_round prec emax (negb s) m e = SFopp (binary_round prec emax s m e).
Proof.
  unfold binary_round. destruct (shl_align m e _) as [mz ez].
  apply binary_round_aux_negb.
Qed.

Lemma SFmul_opp_r (a b : spec_float) :
  SF64mul a (SFopp b) = SFopp (SF64mul a b).
Proof.
  unfold SF64mul.
  destruct a as [sa|sa| |sa ma ea], b as [sb|sb| |sb mb eb]; simpl;
    try reflexivity; rewrite <- ?negb_xorb_r; try reflexivity.
  apply binary_round_aux_negb.
Qed.

Lemma SFmul_opp_l (a b : spec_float) :
  SF64mul (SFopp a) b = SFopp (SF64mul a b).
Proof.
  unfold SF64mul.
  destruct a as [sa|sa| |sa ma ea], b as [sb|sb| |sb mb eb]; simpl;
    try reflexivity; rewrite <- ?negb_xorb_l; try reflexivity.
  apply binary_round_aux_negb.
Qed.

Lemma SFdiv_opp_l (a b : spec_float) :
  SF64div (SFopp a) b = SFopp (SF64div a b).
Proof.
  unfold SF64div.
  destruct a as [sa|sa| |sa ma ea], b as [sb|sb| |sb mb eb]; simpl;
    try reflexivity; rewrite <- ?negb_xorb_l; try reflexivity.
  destruct (SFdiv_core_binary prec emax (Z.pos ma) ea (Z.pos mb) eb)
    as [[mz ez] lz].
  apply binary_round_aux_negb.
Qed.

Lemma opp_involutive (x : float) : (- - x)%float = x.
Proof.
  apply Prim2SF_inj. rewrite !opp_spec. apply SFopp_involutive.
Qed.

Lemma mul_opp_r (x y : float) : (x * - y)%float = (- (x * y))%float.
Proof.
  apply Prim2SF_inj. rewrite opp_spec, !mul_spec, opp_spec.
  apply SFmul_opp_r.
Qed.

Lemma mul_opp_l (x y : float) : (- x * y)%float = (- (x * y))%float.
Proof.
  apply Prim2SF_inj. rewrite opp_spec, !mul_spec, opp_spec.
  apply SFmul_opp_l.
Qed.

Lemma div_opp_l (x y : float) : (- x / y)%float = (- (x / y))%float.
Proof.
  apply Prim2SF_inj. rewrite opp_spec, !div_spec, opp_spec.
  apply SFdiv_opp_l.
Qed.

(** c * s * s at -s is c * s * s at s. *)
Lemma scale_square_opp (c s : float) :
  (c * - s * - s)%float = (c * s * s)%float.
Proof.
  rewrite mul_opp_r, mul_opp_r, mul_opp_l. apply opp_involutive.
Qed.

Lemma SFcompare_refl (f : spec_float) :
  f <> S754_nan -> SFcompare f f = Some Eq.
Proof.
  destruct f as [s|s| |s m e]; intros Hf; try congruence; simpl.
  - reflexivity.
  - destruct s; reflexivity.
  - destruct s; rewrite Z.compare_refl, Pos.compare_cont_refl; reflexivity.
Qed.

Lemma is_nan_spec (x : float) :
  is_nan x = true <-> Prim2SF x = S754_nan.
Proof.
  unfold is_nan. rewrite eqb_spec. unfold SFeqb. split.
  - intros Hn. destruct (Prim2SF x) as [s|s| |s m e] eqn:E; try reflexivity;
      rewrite SFcompare_refl in Hn by discriminate; discriminate.
  - intros ->. reflexivity.
Qed.

End Binary64Facts.

Section Binary64Signs.
Import PrimFloat FloatOps FloatAxioms SpecFloat.

Lemma binary_normalize_opp (z e : Z) :
  SFsame (SFopp (binary_normalize prec emax (- z) e false))
         (binary_normalize prec emax z e false).
Proof.
  destruct z as [|p|p]; cbn [Z.opp binary_normalize].
  - right. simpl. eauto.
  - left.
    change (binary_round prec emax true p e)
      with (binary_round prec emax (negb false) p e).
    rewrite binary_round_negb, SFopp_involutive. reflexivity.
  - left.
    change (binary_round prec emax true p e)
      with (binary_round prec emax (negb false) p e).
    rewrite binary_round_negb. reflexivity.
Qed.

Lemma SFsub_opp_l (x b : spec_float) :
  SFsame (SFopp (SF64sub (SFopp x) b)) (SF64add x b).
Proof.
  unfold SF64sub, SF64add.
  destruct x as [sx|sx| |sx mx ex], b as [sb|sb| |sb mb eb];
    cbn [SFopp SFsub SFadd];
    try (left; reflexivity);
    try (left; destruct sx; reflexivity);
    try (left; destruct sb; reflexivity);
    try (left; destruct sx, sb; reflexivity);
    try (left; rewrite negb_involutive; reflexivity);
    try (right; destruct sx, sb; simpl; eauto; fail).
  set (A := Z.pos (fst (shl_align mx ex (Z.min ex eb)))).
  set (B := Z.pos (fst (shl_align mb eb (Z.min ex eb)))).
  replace (cond_Zopp (negb sx) A - cond_Zopp sb B)
    with (- (cond_Zopp sx A + cond_Zopp sb B))
    by (unfold cond_Zopp; destruct sx, sb; cbn [negb]; lia).
  apply binary_normalize_opp.
Qed.

End Binary64Signs.

Section Binary64Numbers.
Import PrimFloat FloatOps FloatAxioms SpecFloat.

Lemma is_nan_false_spec (x : float) :
  is_nan x = false <-> Prim2SF x <> S754_nan.
Proof.
  rewrite <- is_nan_spec. destruct (is_nan x); split; congruence.
Qed.

Lemma leb_refl (x : float) : is_nan x = false -> (x <=? x)%float = true.
Proof.
  intros Hx. apply is_nan_false_spec in Hx.
  rewrite leb_spec. unfold SFleb. rewrite SFcompare_refl by exact Hx.
  reflexivity.
Qed.

Lemma same_number_refl (x : float) : same_number x x = true.
Proof.
  unfold same_number, num.equal. cbn.
  destruct (is_nan x) eqn:E; [reflexivity|].
  rewrite leb_refl by exact E. reflexivity.
Qed.

Lemma same_number_of_SFsame (x y : float) :
  SFsame (Prim2SF x) (Prim2SF y) -> same_number x y = true.
Proof.
  intros [E|[s1 [s2 [E1 E2]]]].
  - apply Prim2SF_inj in E. subst y. apply same_number_refl.
  - unfold same_number, num.equal. cbn.
    rewrite !leb_spec, E1, E2. apply orb_true_r.
Qed.

(** -((-x) - b) is x + b, up to the sign of a zero. *)
Lemma opp_sub_opp (x b : float) :
  same_number (- (- x - b))%float (x + b)%float = true.
Proof.
  apply same_number_of_SFsame.
  rewrite opp_spec, sub_spec, opp_spec, add_spec.
  apply SFsub_opp_l.
Qed.

(** c - c is +0, or NaN when c is not finite. *)
Lemma SFsub_diag (f : spec_float) :
  SF64sub f f = S754_nan \/ SF64sub f f = S754_zero false.
Proof.
  unfold SF64sub.
  destruct f as [s|s| |s m e]; cbn [SFsub].
  - right. destruct s; reflexivity.
  - left. destruct s; reflexivity.
  - left. reflexivity.
  - right. rewrite Z.sub_diag. reflexivity.
Qed.

Lemma SFleb_antisym (f g : spec_float) :
  SFleb f g = true -> SFleb g f = true -> SFsame f g.
Proof.
  unfold SFleb.
  destruct f as [s1|s1| |s1 m1 e1], g as [s2|s2| |s2 m2 e2];
    cbn [SFcompare]; intros Hfg Hgf;
    try discriminate;
    try (right; eauto; fail);
    try (destruct s1; discriminate);
    try (destruct s2; discriminate).
  - destruct s1, s2; try discriminate; left; reflexivity.
  - change (Pos.compare_cont Eq m1 m2) with (Pos.compare m1 m2) in Hfg.
    change (Pos.compare_cont Eq m2 m1) with (Pos.compare m2 m1) in Hgf.
    destruct s1, s2; try discriminate;
      destruct (Z.compare_spec e1 e2) as [He|He|He];
      destruct (Z.compare_spec e2 e1) as [He'|He'|He'];
      try lia; try discriminate;
      destruct (Pos.compare_spec m1 m2) as [Hm|Hm|Hm];
      destruct (Pos.compare_spec m2 m1) as [Hm'|Hm'|Hm'];
      try lia; try discriminate; subst; left; reflexivity.
Qed.

(** Two floats that compare alike are both NaN, or the same float, or two
    zeros. *)
Lemma same_number_cases (x y : float) :
  same_number x y = true ->
  (Prim2SF x = S754_nan /\ Prim2SF y = S754_nan)
  \/ SFsame (Prim2SF x) (Prim2SF y).
Proof.
  unfold same_number, num.equal. cbn. intros Hxy.
  apply orb_true_iff in Hxy. destruct Hxy as [Hn|He].
  - apply andb_true_iff in Hn. destruct Hn as [Hx Hy].
    left. split; apply is_nan_spec; assumption.
  - apply andb_true_iff in He. destruct He as [Hxy Hyx].
    rewrite leb_spec in Hxy, Hyx. right. apply SFleb_antisym; assumption.
Qed.

(** The difference of two floats that compare alike is a zero, or NaN. *)
Lemma same_number_sub (x y : float) :
  same_number x y = true ->
  Prim2SF (x - y)%float = S754_nan
  \/ exists s, Prim2SF (x - y)%float = S754_zero s.
Proof.
  intros Hxy. rewrite sub_spec.
  destruct (same_number_cases x y Hxy)
    as [[Hx Hy]|[E|[s1 [s2 [E1 E2]]]]].
  - left. rewrite Hx. reflexivity.
  - rewrite E. destruct (SFsub_diag (Prim2SF y)) as [H|H]; rewrite H; eauto.
  - right. rewrite E1, E2. destruct s1, s2; cbn; eauto.
Qed.

(** The length num.arange computes when the two bounds compare alike,
    (upper - lower) / ((upper - lower) / nbins), is NaN whatever nbins
    is. *)
Lemma degenerate_length_nan (upper lower nbins : float) :
  same_number upper lower = true ->
  is_nan ((upper - lower) / ((upper - lower) / nbins))%float = true.
Proof.
  intros Hul. apply is_nan_spec. rewrite !div_spec.
  destruct (same_number_sub upper lower Hul) as [E|[s E]]; rewrite E.
  - reflexivity.
  - unfold SF64div. destruct (Prim2SF nbins) as [t|t| |t mn en]; reflexivity.
Qed.

End Binary64Numbers.

(** ** What a sum preserves *)

Section SumClosure.
Context {F : Type} `{num.Float F}.
Variable P : F -> Prop.
Hypothesis P_zero : P (num.of_int 0).
Hypothesis P_add : forall x y, P x -> P y -> P (num.add x y).

Lemma fold_add_closed (a : list F) :
  forall acc, P acc -> Forall P a -> P (fold_left num.add a acc).
Proof.
  induction a as [|x t IH]; intros acc Hacc Ha; [exact Hacc|].
  simpl. inversion Ha; subst. apply IH; [apply P_add; assumption|assumption].
Qed.

Lemma Forall_firstn_closed (n : nat) :
  forall a : list F, Forall P a -> Forall P (firstn n a).
Proof.
  induction n as [|k IH]; intros a Ha; [constructor|].
  destruct a as [|x t]; [constructor|].
  inversion Ha; subst. simpl. constructor; [assumption|apply IH; assumption].
Qed.

Lemma Forall_skipn_closed (n : nat) :
  forall a : list F, Forall P a -> Forall P (skipn n a).
Proof.
  induction n as [|k IH]; intros a Ha; [exact Ha|].
  destruct a as [|x t]; [constructor|].
  inversion Ha; subst. simpl. apply IH. assumption.
Qed.

Lemma add_lanes_closed (r : list F) :
  forall a, Forall P r -> Forall P a -> Forall P (num.add_lanes r a).
Proof.
  induction r as [|x r IH]; intros a Hr Ha; [constructor|].
  destruct a as [|y a]; [exact Hr|].
  inversion Hr; inversion Ha; subst. simpl. constructor.
  - apply P_add; assumption.
  - apply IH; assumption.
Qed.

Lemma unrolled_closed (blocks : nat) :
  forall r a, Forall P r -> Forall P a ->
    Forall P (fst (num.unrolled blocks r a))
    /\ Forall P (snd (num.unrolled blocks r a)).
Proof.
  induction blocks as [|k IH]; intros r a Hr Ha; [split; assumption|].
  cbn [num.unrolled]. apply IH.
  - apply add_lanes_closed; [exact Hr|apply Forall_firstn_closed, Ha].
  - apply Forall_skipn_closed, Ha.
Qed.

Lemma pairwise_block_closed (a : list F) :
  Forall P a -> P (num.pairwise_block a).
Proof.
  intros Ha. unfold num.pairwise_block.
  destruct (unrolled_closed (List.length a / 8 - 1) (firstn 8 a) (skipn 8 a)
              (Forall_firstn_closed 8 a Ha) (Forall_skipn_closed 8 a Ha))
    as [Hr Hrest].
  destruct (num.unrolled _ _ _) as [r rest]. cbn [fst snd] in Hr, Hrest.
  destruct r as [|r0 [|r1 [|r2 [|r3 [|r4 [|r5 [|r6 [|r7 [|r8 r]]]]]]]]];
    try (apply fold_add_closed; [exact P_zero|exact Ha]).
  repeat match goal with
         | Hf : Forall P (_ :: _) |- _ => inversion Hf; subst; clear Hf
         end.
  apply fold_add_closed; [|exact Hrest].
  repeat apply P_add; assumption.
Qed.

Lemma pairwise_sum_closed (depth : nat) :
  forall a, Forall P a -> P (num.pairwise_sum depth a).
Proof.
  induction depth as [|d IH]; intros a Ha; cbn [num.pairwise_sum].
  - destruct (Nat.ltb _ 8); [apply fold_add_closed; assumption|].
    destruct (Nat.leb _ 128); apply pairwise_block_closed, Ha.
  - destruct (Nat.ltb _ 8); [apply fold_add_closed; assumption|].
    destruct (Nat.leb _ 128); [apply pairwise_block_closed, Ha|].
    apply P_add; apply IH;
      [apply Forall_firstn_closed, Ha|apply Forall_skipn_closed, Ha].
Qed.

(** A property of 0 that addition preserves holds of the sum of an array
    whose entries have it. *)
Lemma sum_closed (a : list F) : Forall P a -> P (num.sum a).
Proof.
  intros Ha. unfold num.sum.
  apply P_add; [exact P_zero|apply pairwise_sum_closed, Ha].
Qed.

End SumClosure.

Section Binary64NotNegative.
Import PrimFloat FloatOps FloatAxioms SpecFloat.

Lemma binary_round_aux_notneg (m e : Z) (l : location) :
  SFnotneg (binary_round_aux prec emax false m e l).
Proof.
  unfold binary_round_aux.
  destruct (shr_fexp prec emax m e l) as [mrs e'].
  destruct (shr_fexp prec emax _ e' loc_Exact) as [mrs'' e''].
  destruct (shr_m mrs''); try exact I.
  destruct (Z.leb e'' (emax - prec)); exact I.
Qed.

Lemma binary_round_notneg (m : positive) (e : Z) :
  SFnotneg (binary_round prec emax false m e).
Proof.
  unfold binary_round. destruct (shl_align m e _) as [mz ez].
  apply binary_round_aux_notneg.
Qed.

Lemma SFmul_self_notneg (f : spec_float) : SFnotneg (SF64mul f f).
Proof.
  unfold SF64mul. destruct f as [s|s| |s m e]; cbn [SFmul];
    rewrite ?xorb_nilpotent; try exact I.
  apply binary_round_aux_notneg.
Qed.

Lemma SFadd_notneg (f g : spec_float) :
  SFnotneg f -> SFnotneg g -> SFnotneg (SF64add f g).
Proof.
  unfold SF64add.
  destruct f as [sf|sf| |sf mf ef], g as [sg|sg| |sg mg eg];
    intros Hf Hg; cbn [SFadd]; try exact I; try exact Hf; try exact Hg;
    try (destruct sf, sg; simpl in *; tauto).
  destruct sf; [contradiction|]. destruct sg; [contradiction|].
  cbn [cond_Zopp Z.add binary_normalize]. apply binary_round_notneg.
Qed.

Lemma square_notneg (x : float) : notneg (x * x)%float.
Proof. unfold notneg. rewrite mul_spec. apply SFmul_self_notneg. Qed.

Lemma add_notneg (x y : float) : notneg x -> notneg y -> notneg (x + y)%float.
Proof. unfold notneg. rewrite add_spec. apply SFadd_notneg. Qed.

Lemma of_int_notneg (z : Z) : 0 <= z -> notneg (Binary64.of_int z).
Proof.
  intros Hz. unfold notneg, Binary64.of_int.
  destruct (Z.ltb_spec z 0) as [Hlt|_]; [lia|].
  rewrite of_uint63_spec.
  pose proof (Uint63.to_Z_bounded (Uint63.of_Z z)) as Hb.
  destruct (Uint63.to_Z (Uint63.of_Z z)) as [|p|p]; cbn [binary_normalize].
  - exact I.
  - apply binary_round_notneg.
  - lia.
Qed.

Lemma sum_sq_notneg (a : list float) (m : float) : notneg (sum_sq a m).
Proof.
  unfold sum_sq. apply (sum_closed notneg).
  - apply (of_int_notneg 0). lia.
  - exact add_notneg.
  - apply Forall_forall. intros x Hx. apply in_map_iff in Hx.
    destruct Hx as [d [<- _]]. apply square_notneg.
Qed.

(** -S/0 - N*(-inf) is NaN when neither S nor N is below zero. *)
Lemma zero_scale_nan (S N : float) :
  notneg S -> notneg N ->
  is_nan (- (- S / 0 - N * neg_infinity))%float = true.
Proof.
  unfold notneg. intros HS HN. apply is_nan_spec.
  rewrite opp_spec, sub_spec, div_spec, opp_spec, mul_spec.
  change (Prim2SF 0) with (S754_zero false).
  change (Prim2SF neg_infinity) with (S754_infinity true).
  destruct (Prim2SF S) as [s|s| |s mS eS], (Prim2SF N) as [t|t| |t mN eN];
    try reflexivity;
    try (destruct s; [contradiction|]); try (destruct t; [contradiction|]);
    reflexivity.
Qed.

Lemma gaussLike_zero_scale (self : bgFinder float) (m : float) :
  is_nan (_gaussLike self (m, 0%float)) = true.
Proof.
  unfold _gaussLike.
  change (num.negative (num.subtract
            (num.divide (num.negative (sum_sq (data self) m))
               (num.multiply (num.multiply (num.of_int 2) 0%float) 0%float))
            (num.multiply (num.of_int (len (data self)))
               (num.log (num.sqrt
                  (num.multiply
                     (num.multiply (num.multiply (num.of_int 2) num.pi)
                        0%float) 0%float))))))
    with (- (- sum_sq (data self) m / 0
             - Binary64.of_int (len (data self)) * neg_infinity))%float.
  apply zero_scale_nan.
  - apply sum_sq_notneg.
  - apply of_int_notneg. unfold len. lia.
Qed.

End Binary64NotNegative.

(** ** The Gaussian fit *)

Section GaussianFit.
Context {F : Type} `{num.Float F}.

(** [num.std] divides by N, the number of values. *)
Lemma std_written_out (a : list F) :
  num.std a = root_mean_square_deviation a.
Proof.
  unfold num.std, root_mean_square_deviation, sum_sq. cbv zeta.
  f_equal. unfold num.mean at 1. f_equal.
  unfold len. rewrite length_map. reflexivity.
Qed.

End GaussianFit.

Section GaussianFitOnFloat64.
Import PrimFloat FloatOps FloatAxioms SpecFloat.

Lemma gaussLike_resolved (self : bgFinder float) (m s : float) :
  same_number (_gaussLike self (m, s)) (NLL_of_square (data self) m s) = true.
Proof.
  unfold _gaussLike, NLL_of_square, sum_sq. cbn.
  rewrite div_opp_l. apply opp_sub_opp.
Qed.

Lemma gaussLike_mirror (self : bgFinder float) (m s : float) :
  _gaussLike self (m, (- s)%float) = _gaussLike self (m, s).
Proof.
  unfold _gaussLike. cbn.
  rewrite !scale_square_opp. reflexivity.
Qed.

Lemma eqb_zero (x : float) :
  (x =? 0)%float = true -> x = 0%float \/ x = (-0)%float.
Proof.
  rewrite eqb_spec. change (Prim2SF 0) with (S754_zero false).
  intros Hx.
  destruct (Prim2SF x) as [s|s| |s m e] eqn:E.
  - destruct s; [right|left]; apply Prim2SF_inj; rewrite E; reflexivity.
  - destruct s; discriminate Hx.
  - discriminate Hx.
  - destruct s; discriminate Hx.
Qed.

Lemma gaussLike_zero_scales (self : bgFinder float) (m s : float) :
  (s =? 0)%float = true -> is_nan (_gaussLike self (m, s)) = true.
Proof.
  intros Hs. destruct (eqb_zero s Hs) as [->| ->].
  - apply gaussLike_zero_scale.
  - rewrite gaussLike_mirror. apply gaussLike_zero_scale.
Qed.

(** C5, as the code has it: for every sample, m and s the objective is the
    float64 number sum/(2*s*s) + N*log((2*pi*s*s)**0.5) (both NaN, or
    equal), and the fit hands the optimizer that objective and the start
    (median, sqrt(sum((x - mean)**2)/N)). *)
Theorem gaussFit_objective_and_start
    (fmin : (float * float -> float) -> float * float -> float * float)
    (self : bgFinder float) (m s : float) :
  same_number (_gaussLike self (m, s)) (NLL_of_square (data self) m s) = true
  /\ gaussFit fmin self
     = (Ok (fst (fmin (_gaussLike self)
                   (num.median (data self),
                    root_mean_square_deviation (data self)))),
        mk_bgFinder (data self)
          (Some (fmin (_gaussLike self)
                   (num.median (data self),
                    root_mean_square_deviation (data self))))).
Proof.
  split; [apply gaussLike_resolved|].
  unfold gaussFit, _gaussFit. cbv zeta.
  rewrite std_written_out. reflexivity.
Qed.

(** On the sample 1, 2 with m = 1.5: at s = 2^665 NLL(m, s) is about
    923.7, and the objective is +infinity; at s = 2^-665 the objective is
    NaN. *)
Lemma gaussLike_leaves_NLL :
  (0 <? Examples.huge)%float = true
  /\ _gaussLike (__init__ Examples.pair) (1.5%float, Examples.huge) = infinity
  /\ (923 <? NLL_spec Examples.pair 1.5%float Examples.huge)%float = true
  /\ (NLL_spec Examples.pair 1.5%float Examples.huge <? 924)%float = true
  /\ (0 <? Examples.tiny)%float = true
  /\ is_nan (_gaussLike (__init__ Examples.pair) (1.5%float, Examples.tiny))
     = true
  /\ NLL_spec Examples.pair 1.5%float Examples.tiny = infinity.
Proof. repeat split; vm_compute; reflexivity. Qed.

Lemma gaussFit_objective_and_start_witness :
  same_number (_gaussLike (__init__ Examples.pair) (1.5, 1)%float)
    (NLL_of_square Examples.pair 1.5%float 1%float) = true
  /\ fst (gaussFit (fun _ start => start) (__init__ Examples.pair))
     = Ok 1.5%float
  /\ gauss (snd (gaussFit (fun _ start => start) (__init__ Examples.pair)))
     = Some (1.5, 0.5)%float.
Proof.
  destruct (gaussFit_objective_and_start (fun _ start => start)
              (__init__ Examples.pair) 1.5%float 1%float) as [Hobj Hfit].
  split; [exact Hobj|]. rewrite Hfit. split; vm_compute; reflexivity.
Defined.

(** C8, as the code has it: the objective has no guard on the scale.  Its
    value at -s is its value at s, for every sample, m and s; and at
    s = 0, of either sign, it is NaN for every sample and every m. *)
Theorem gaussLike_negative_scale (self : bgFinder float) (m s : float) :
  _gaussLike self (m, (- s)%float) = _gaussLike self (m, s)
  /\ is_nan (_gaussLike self (m, 0%float)) = true
  /\ is_nan (_gaussLike self (m, (-0)%float)) = true.
Proof.
  split; [apply gaussLike_mirror|].
  split; apply gaussLike_zero_scales; reflexivity.
Qed.

(** On the sample 1, 2 with m = 1.5: at s = -1 the objective is the same
    finite number as at s = 1, and at s = 0 the divisions are carried out
    and the result is NaN, not +infinity. *)
Lemma gaussLike_unguarded :
  _gaussLike (__init__ Examples.pair) (1.5, -1)%float
  = _gaussLike (__init__ Examples.pair) (1.5, 1)%float
  /\ is_infinity (_gaussLike (__init__ Examples.pair) (1.5, -1)%float) = false
  /\ is_nan (_gaussLike (__init__ Examples.pair) (1.5, -1)%float) = false
  /\ (- 0.5 / (2 * 0 * 0))%float = neg_infinity
  /\ is_nan (_gaussLike (__init__ Examples.pair) (1.5, 0)%float) = true.
Proof. repeat split; vm_compute; reflexivity. Qed.

End GaussianFitOnFloat64.

(** ** Degenerate samples *)

Section DegenerateSamples.
Context {F : Type} `{num.Float F}.

Lemma item_In (d : F) (l : list F) (i : Z) :
  0 <= i < len l -> In (item d l i) l.
Proof. intros Hi. unfold item. apply nth_In. unfold len in Hi. lia. Qed.

(** Both bounds of the histogram are values of the sample. *)
Lemma hist_bounds_In (a : list F) :
  2 <= len a -> In (hist_lower a) a /\ In (hist_upper a) a.
Proof.
  intros Hlen.
  assert (Hb : len (num.sort a) = len a).
  { unfold len. rewrite length_sort. reflexivity. }
  unfold hist_lower, hist_upper. cbv zeta. split.
  - apply sort_In. apply item_In.
    rewrite Hb. Z.div_mod_to_equations; lia.
  - apply sort_In. apply item_In.
    rewrite Hb. Z.div_mod_to_equations; lia.
Qed.

End DegenerateSamples.

Section DegenerateOnFloat64.
Import PrimFloat FloatOps FloatAxioms SpecFloat.

Lemma arange_degenerate (lower upper nbins : float) :
  same_number upper lower = true ->
  num.arange lower upper (num.divide (num.subtract upper lower) nbins)
  = Raise ValueError.
Proof.
  intros Hul. unfold num.arange. cbv zeta.
  change (num.isnan (num.divide (num.subtract upper lower)
                       (num.divide (num.subtract upper lower) nbins)))
    with (is_nan ((upper - lower) / ((upper - lower) / nbins))%float).
  rewrite degenerate_length_nan by exact Hul. reflexivity.
Qed.

Lemma histMode_degenerate (a : list float) (nbins : float) :
  (forall x y, In x a -> In y a -> same_number x y = true) ->
  histMode (Some nbins) (__init__ a)
  = (Raise (if len a <? 2 then IndexError else ValueError), __init__ a).
Proof.
  intros Hsame. unfold histMode, default, _stats.
  unfold bind at 1. unfold bind at 1.
  destruct (Z.ltb_spec (len a) 2) as [Hlt|Hge].
  - rewrite (ahist_short_sample nbins (__init__ a) Hlt). reflexivity.
  - destruct (hist_bounds_In a Hge) as [Hlo Hup].
    rewrite (ahist_arange_raises nbins (__init__ a) ValueError Hge);
      [reflexivity|].
    unfold bin_width. cbn [data __init__].
    apply arange_degenerate. apply Hsame; assumption.
Qed.

(** C7, as the code has it: on every degenerate sample (empty, or with
    values that all compare equal, or all NaN) the Histogram-Mode estimator
    raises, whatever the number of bins: IndexError on fewer than two
    elements, ValueError otherwise.  The Gaussian estimator raises on no
    such sample: it returns the first component of what the optimizer
    answers from the start (median, standard deviation).  On the empty
    sample that start is (NaN, NaN), and whenever the standard deviation
    comes out as 0 the objective at the start is NaN. *)
Theorem degenerate_samples (a : list float) (nbins : option float)
    (fmin : (float * float -> float) -> float * float -> float * float) :
  (forall x y, In x a -> In y a -> same_number x y = true) ->
  histMode nbins (__init__ a)
  = (Raise (if len a <? 2 then IndexError else ValueError), __init__ a)
  /\ fst (gaussFit fmin (__init__ a))
     = Ok (fst (fmin (_gaussLike (__init__ a)) (num.median a, num.std a)))
  /\ (a = [] -> is_nan (num.median a) = true /\ is_nan (num.std a) = true)
  /\ ((num.std a =? 0)%float = true ->
      is_nan (_gaussLike (__init__ a) (num.median a, num.std a)) = true).
Proof.
  intros Hsame. split; [|split; [|split]].
  - destruct nbins as [n|].
    + apply histMode_degenerate, Hsame.
    + apply (histMode_degenerate a (num.of_int 50)), Hsame.
  - reflexivity.
  - intros ->. split; vm_compute; reflexivity.
  - apply gaussLike_zero_scales.
Qed.

Lemma degenerate_samples_witness :
  ((forall x y, In x Examples.constant -> In y Examples.constant ->
      same_number x y = true)
   /\ histMode None (__init__ Examples.constant)
      = (Raise ValueError, __init__ Examples.constant)
   /\ fst (gaussFit (fmin_converged Examples.constant)
             (__init__ Examples.constant)) = Ok 5%float
   /\ is_nan (_gaussLike (__init__ Examples.constant)
                (num.median Examples.constant, num.std Examples.constant))
      = true)
  /\ ((forall x y : float, In x [] -> In y [] -> same_number x y = true)
      /\ histMode (Some 50%float) (__init__ [])
         = (Raise IndexError, __init__ [])
      /\ fst (gaussFit (fun _ start => start) (__init__ [])) = Ok nan).
Proof.
  assert (Hsame : forall x y, In x Examples.constant ->
                    In y Examples.constant -> same_number x y = true).
  { intros x y Hx Hy.
    apply (repeat_spec 3 5%float) in Hx.
    apply (repeat_spec 3 5%float) in Hy. subst. reflexivity. }
  assert (Hstd : (num.std Examples.constant =? 0)%float = true)
    by (vm_compute; reflexivity).
  assert (Hnone : forall x y : float,
            In x [] -> In y [] -> same_number x y = true)
    by (intros x y Hx; destruct Hx).
  split.
  - split; [exact Hsame|].
    destruct (degenerate_samples Examples.constant None
                (fmin_converged Examples.constant) Hsame)
      as [Hhist [Hfit [_ Hnan]]].
    split; [exact Hhist|]. split; [exact Hfit|]. exact (Hnan Hstd).
  - split; [exact Hnone|].
    destruct (degenerate_samples [] (Some 50%float) (fun _ start => start)
                Hnone)
      as [Hhist [Hfit _]].
    split; [exact Hhist|]. rewrite Hfit. vm_compute. reflexivity.
Defined.

(** On the sample 5, 5, 5 the fit starts from (5, 0), where the objective
    is 0/0; whatever the optimizer, [gaussFit] returns the first component
    of its answer and raises nothing.  On 0.1, 0.1, 0.1 the mean is rounded
    up, the deviation is 2^-56 and the objective at the start is a number;
    [gaussFit] raises nothing there either. *)
Lemma gaussFit_accepts_constant_sample :
  num.median Examples.constant = 5%float
  /\ num.std Examples.constant = 0%float
  /\ is_nan (_gaussLike (__init__ Examples.constant) (5, 0)%float) = true
  /\ (fun fmin => fst (gaussFit fmin (__init__ Examples.constant)))
     = (fun fmin =>
          Ok (fst (fmin (_gaussLike (__init__ Examples.constant))
                     (5, 0)%float)))
  /\ fst (gaussFit (fmin_converged Examples.constant)
            (__init__ Examples.constant)) = Ok 5%float
  /\ num.std Examples.tenths = 0x1p-56%float
  /\ is_nan (_gaussLike (__init__ Examples.tenths)
               (num.median Examples.tenths, num.std Examples.tenths)) = false
  /\ fst (gaussFit (fmin_converged Examples.tenths)
            (__init__ Examples.tenths)) = Ok 0x1.999999999999bp-4%float.
Proof. repeat split; vm_compute; reflexivity. Qed.

End DegenerateOnFloat64.


(** * Further properties *)

(** ** When the Histogram-Mode estimator fails *)

Section HistogramFailures.
Context {F : Type} `{num.Float F}.

(** [num.arange] raises nothing but ValueError. *)
Lemma arange_raises_ValueError (start stop step : F) (e : exn) :
  num.arange start stop step = Raise e -> e = ValueError.
Proof.
  unfold num.arange.
  destruct (num.isnan _); [congruence|].
  destruct (_ || _); [congruence|discriminate].
Qed.

(** X1: The three ways [histMode] fails: a sample of fewer than two elements
    (IndexError from indexing the sorted sample), an array of bin edges that
    [num.arange] refuses (ValueError), and an empty array of bin edges
    (IndexError from zeroing the last count of an empty histogram). *)
Theorem histMode_failures (nbins : F) (self : bgFinder F) :
  (len (data self) < 2 ->
   histMode (Some nbins) self = (Raise IndexError, self))
  /\ (2 <= len (data self) ->
      forall e,
        num.arange (hist_lower (data self)) (hist_upper (data self))
          (bin_width nbins (data self)) = Raise e ->
        e = ValueError
        /\ histMode (Some nbins) self = (Raise ValueError, self))
  /\ (2 <= len (data self) ->
      num.arange (hist_lower (data self)) (hist_upper (data self))
        (bin_width nbins (data self)) = Ok [] ->
      histMode (Some nbins) self = (Raise IndexError, self)).
Proof.
  split; [|split].
  - intros Hlen. unfold histMode, default, _stats.
    unfold bind at 1. unfold bind at 1.
    rewrite (ahist_short_sample nbins self Hlen). reflexivity.
  - intros Hlen e Har.
    pose proof (arange_raises_ValueError _ _ _ _ Har) as He. subst e.
    split; [reflexivity|].
    unfold histMode, default, _stats.
    unfold bind at 1. unfold bind at 1.
    rewrite (ahist_arange_raises nbins self ValueError Hlen Har). reflexivity.
  - intros Hlen Har. unfold histMode, default, _stats.
    unfold bind at 1. unfold bind at 1.
    rewrite (ahist_run nbins self [] Hlen Har). reflexivity.
Qed.

(** X2: With no positive count strictly between the first and the last bin (with
    one or two bins there is no such bin at all) the zeroed histogram is
    flat, [num.argmax] answers 0 and the estimate is 0 * bin_width + lower. *)
Theorem histMode_flat_histogram (nbins : F) (self : bgFinder F)
    (edges : list F) :
  2 <= len (data self) ->
  num.arange (hist_lower (data self)) (hist_upper (data self))
    (bin_width nbins (data self)) = Ok edges ->
  edges <> [] ->
  (forall j, 0 < j < len edges - 1 ->
             item 0 (raw_counts edges (data self)) j <= 0) ->
  histMode (Some nbins) self
  = (Ok (num.add (num.multiply (num.of_int 0) (bin_width nbins (data self)))
           (hist_lower (data self))),
     self).
Proof.
  intros Hlen Har Hne Hflat.
  destruct (stats_run nbins self edges Hlen Har Hne)
    as [counts [am [Hz [Hfm [sd Hrun]]]]].
  assert (Hraw : len (raw_counts edges (data self)) = len edges).
  { unfold raw_counts, len. rewrite length_diff_snoc.
    unfold num.searchsorted. rewrite length_map. reflexivity. }
  destruct Hz as [Hl [H0 [Hlast Hmid]]]. rewrite Hraw in Hl.
  destruct Hfm as [Ham [Hmax Hfirst]].
  assert (Hle : item 0 counts am <= 0).
  { destruct (Z.eq_dec am 0) as [->|Hn0]; [lia|].
    destruct (Z.eq_dec am (len counts - 1)) as [->|Hnl]; [lia|].
    rewrite Hmid by lia. apply Hflat. lia. }
  assert (Hzero : am = 0).
  { destruct (Z.eq_dec am 0) as [E|Hn0]; [exact E|].
    specialize (Hfirst 0). lia. }
  subst am. unfold histMode, default, bind. rewrite Hrun. reflexivity.
Qed.

End HistogramFailures.

Section HistogramFailuresOnFloat64.
Import PrimFloat.

Lemma histMode_failures_witness :
  (len (data (__init__ [7%float])) < 2
   /\ histMode (Some 50%float) (__init__ [7%float])
      = (Raise IndexError, __init__ [7%float]))
  /\ (2 <= len (data (__init__ Examples.pair))
      /\ histMode (Some 50%float) (__init__ Examples.pair)
         = (Raise ValueError, __init__ Examples.pair))
  /\ (2 <= len (data (__init__ Examples.ten))
      /\ histMode (Some (-4)%float) (__init__ Examples.ten)
         = (Raise IndexError, __init__ Examples.ten)).
Proof.
  split; [|split].
  - assert (Hlen : len (data (__init__ [7%float])) < 2)
      by (vm_compute; reflexivity).
    split; [exact Hlen|].
    exact (proj1 (histMode_failures 50%float (__init__ [7%float])) Hlen).
  - assert (Hlen : 2 <= len (data (__init__ Examples.pair)))
      by (vm_compute; discriminate).
    assert (Har : num.arange (hist_lower (data (__init__ Examples.pair)))
                    (hist_upper (data (__init__ Examples.pair)))
                    (bin_width 50%float (data (__init__ Examples.pair)))
                  = Raise ValueError) by (vm_compute; reflexivity).
    split; [exact Hlen|].
    exact (proj2 (proj1 (proj2 (histMode_failures 50%float
                                  (__init__ Examples.pair)))
                    Hlen ValueError Har)).
  - assert (Hlen : 2 <= len (data (__init__ Examples.ten)))
      by (vm_compute; discriminate).
    assert (Har : num.arange (hist_lower (data (__init__ Examples.ten)))
                    (hist_upper (data (__init__ Examples.ten)))
                    (bin_width (-4)%float (data (__init__ Examples.ten)))
                  = Ok []) by (vm_compute; reflexivity).
    split; [exact Hlen|].
    exact (proj2 (proj2 (histMode_failures (-4)%float
                           (__init__ Examples.ten))) Hlen Har).
Defined.

Lemma histMode_flat_histogram_witness :
  2 <= len (data (__init__ Examples.ten))
  /\ num.arange (hist_lower Examples.ten) (hist_upper Examples.ten)
       (bin_width 2%float Examples.ten) = Ok [2; 6]%float
  /\ histMode (Some 2%float) (__init__ Examples.ten)
     = (Ok 2%float, __init__ Examples.ten).
Proof.
  assert (Hlen : 2 <= len (data (__init__ Examples.ten)))
    by (vm_compute; discriminate).
  assert (Har : num.arange (hist_lower (data (__init__ Examples.ten)))
                  (hist_upper (data (__init__ Examples.ten)))
                  (bin_width 2%float (data (__init__ Examples.ten)))
                = Ok [2; 6]%float) by (vm_compute; reflexivity).
  assert (Hne : [2; 6]%float <> []) by discriminate.
  assert (Hflat : forall j, 0 < j < len [2; 6]%float - 1 ->
            item 0 (raw_counts [2; 6]%float (data (__init__ Examples.ten))) j
            <= 0).
  { intros j Hj. unfold len in Hj. simpl in Hj. lia. }
  split; [exact Hlen|split; [exact Har|]].
  rewrite (histMode_flat_histogram 2%float (__init__ Examples.ten)
             [2; 6]%float Hlen Har Hne Hflat).
  vm_compute. reflexivity.
Defined.

End HistogramFailuresOnFloat64.

(** ** What the estimators read, and when the adaptive one raises *)

Section Composition.
Context {F : Type} `{num.Float F}.
Variable fmin : (F * F -> F) -> F * F -> F * F.

Lemma bind_ok {A B} (c : action F A) (k : A -> action F B)
    (self : bgFinder F) (a : A) (self' : bgFinder F) :
  c self = (Ok a, self') -> bind c k self = k a self'.
Proof. intros E. unfold bind. rewrite E. reflexivity. Qed.

Lemma bind_raise {A B} (c : action F A) (k : A -> action F B)
    (self : bgFinder F) (e : exn) (self' : bgFinder F) :
  c self = (Raise e, self') -> bind c k self = (Raise e, self').
Proof. intros E. unfold bind. rewrite E. reflexivity. Qed.

Lemma fraserMode_run (multi : F) (self : bgFinder F) :
  _fraserMode multi self = (Ok (fraserMode_value multi (data self)), self).
Proof.
  unfold _fraserMode, fraserMode_value.
  fold (quantize multi (data self)).
  destruct (stats.mode (quantize multi (data self))) as [|m [|m' t]];
    try reflexivity.
  unfold equal_broadcast. rewrite take_where.
  - simpl. unfold values_at.
    rewrite (filter_combine_map (fun q => q =? m)). reflexivity.
  - unfold quantize. rewrite !length_map. reflexivity.
Qed.

(** X5: [fraserMode] raises on no sample and for no scale factor; on the
    empty sample it returns the median of an empty array. *)
Theorem fraserMode_never_raises (multi : option F) (self : bgFinder F) :
  exists v,
    fraserMode multi self = (Ok v, self)
    /\ (data self = [] -> v = num.median []).
Proof.
  exists (fraserMode_value (default (num.lit 1 10) multi) (data self)).
  split; [apply fraserMode_run|].
  intros E. rewrite E. reflexivity.
Qed.

Lemma fitted_data (s1 s2 : bgFinder F) :
  data s1 = data s2 -> fitted fmin s1 = fitted fmin s2.
Proof.
  intros E. unfold fitted. rewrite (fit_of_data fmin s1 s2 E), E. reflexivity.
Qed.

Lemma smartBackground_data (gaussStdLimit : F) (backupMode : string)
    (inp : option F) (s1 s2 : bgFinder F) :
  data s1 = data s2 ->
  smartBackground fmin gaussStdLimit backupMode inp s1
  = smartBackground fmin gaussStdLimit backupMode inp s2.
Proof.
  intros E. rewrite !smartBackground_unfold.
  rewrite (fit_of_data fmin s1 s2 E), (fitted_data s1 s2 E). reflexivity.
Qed.

Lemma ahist_data (nbins : F) (s1 s2 : bgFinder F) :
  data s1 = data s2 -> fst (_ahist nbins s1) = fst (_ahist nbins s2).
Proof. intros E. unfold _ahist. simpl. rewrite E. reflexivity. Qed.

Lemma stats_data (nbins : F) (s1 s2 : bgFinder F) :
  data s1 = data s2 -> fst (_stats nbins s1) = fst (_stats nbins s2).
Proof.
  intros E. unfold _stats. unfold bind at 1. unfold bind at 5.
  pose proof (ahist_data nbins s1 s2 E) as Ha.
  pose proof (read_only_ahist nbins s1) as R1.
  pose proof (read_only_ahist nbins s2) as R2.
  destruct (_ahist nbins s1) as [r1 t1], (_ahist nbins s2) as [r2 t2].
  simpl in Ha, R1, R2. subst.
  destruct r2 as [[[b w] l]|e]; [|reflexivity].
  unfold bind, lift, ret.
  destruct (setitem b (len b - 1) 0) as [b1|e]; [|reflexivity].
  destruct (setitem b1 0 0) as [b2|e]; [|reflexivity].
  destruct (num.argmax b2) as [am|e]; [|reflexivity].
  destruct (getitem b2 am) as [bam|e]; reflexivity.
Qed.

Ltac name_cases :=
  repeat match goal with
         | |- context [String.eqb ?m ?s] =>
             let E := fresh "E" in
             destruct (String.eqb_spec m s) as [E|E];
             [try discriminate E; try subst m; try congruence
             | try congruence]
         end.

Lemma call_data (method : string) (inp : option F) (s1 s2 : bgFinder F) :
  data s1 = data s2 ->
  fst (__call__ fmin method inp s1) = fst (__call__ fmin method inp s2).
Proof.
  intros E.
  destruct (String.eqb_spec method "smart") as [->|Hsmart].
  { rewrite call_smart. rewrite (smartBackground_data _ _ _ s1 s2 E).
    reflexivity. }
  unfold __call__. simpl call_depth.
  name_cases; try reflexivity.
  - simpl. rewrite E. reflexivity.
  - simpl. rewrite E. reflexivity.
  - unfold bind. pose proof (stats_data
      match inp with Some i => i | None => num.of_int 50 end s1 s2 E) as Hs.
    destruct (_stats _ s1) as [[r1|e1] t1], (_stats _ s2) as [[r2|e2] t2];
      simpl in Hs; try discriminate; inversion Hs; reflexivity.
  - rewrite !fraserMode_run. rewrite E. reflexivity.
  - rewrite !gaussFit_run. rewrite (fit_of_data fmin s1 s2 E). reflexivity.
Qed.

(** X9: what an operation returns depends on [self.data] only.  A fit cached
    by an earlier call is never read back: the dispatcher returns the same
    on two instances with the same sample, and [gaussFit] and
    [smartBackground] also leave them in the same state. *)
Theorem estimators_read_data_only (s1 s2 : bgFinder F) :
  data s1 = data s2 ->
  (forall method inp,
      fst (__call__ fmin method inp s1) = fst (__call__ fmin method inp s2))
  /\ (forall nbins, fst (histMode nbins s1) = fst (histMode nbins s2))
  /\ (forall multi, fst (fraserMode multi s1) = fst (fraserMode multi s2))
  /\ gaussFit fmin s1 = gaussFit fmin s2
  /\ (forall gaussStdLimit backupMode inp,
        smartBackground fmin gaussStdLimit backupMode inp s1
        = smartBackground fmin gaussStdLimit backupMode inp s2).
Proof.
  intros E. repeat split.
  - intros method inp. apply call_data, E.
  - intros nbins. unfold histMode, bind.
    pose proof (stats_data (default (num.of_int 50) nbins) s1 s2 E) as Hs.
    destruct (_stats _ s1) as [[r1|e1] t1], (_stats _ s2) as [[r2|e2] t2];
      simpl in Hs; try discriminate; inversion Hs; reflexivity.
  - intros multi. unfold fraserMode. rewrite !fraserMode_run, E. reflexivity.
  - unfold gaussFit. rewrite !gaussFit_run.
    rewrite (fit_of_data fmin s1 s2 E), (fitted_data s1 s2 E). reflexivity.
  - intros l b i. apply smartBackground_data, E.
Qed.

Lemma call_fraserMode (inp : option F) (self : bgFinder F) :
  __call__ fmin "fraserMode" inp self
  = (Ok (fraserMode_value (default (num.lit 1 10) inp) (data self)), self).
Proof.
  unfold __call__. simpl call_depth.
  destruct inp; apply fraserMode_run.
Qed.

(** X10: with the backup method 'fraserMode' (the default) the adaptive
    estimator never raises.  It returns the fitted mean when the test does
    not fire and [fraserMode()], at the default 0.1, when it does, whatever
    [inp] is. *)
Theorem smartBackground_fraserMode_backup (gaussStdLimit : F)
    (inp : option F) (self : bgFinder F) :
  exists v,
    smartBackground fmin gaussStdLimit "fraserMode" inp self
    = (Ok v, fitted fmin self)
    /\ (num.greater (ratio (fit_of fmin self)) gaussStdLimit = false ->
        v = fst (fit_of fmin self))
    /\ (num.greater (ratio (fit_of fmin self)) gaussStdLimit = true ->
        fraserMode None self = (Ok v, self)).
Proof.
  rewrite smartBackground_unfold.
  unfold fraserMode. rewrite fraserMode_run. simpl default.
  destruct (num.greater _ _).
  - exists (fraserMode_value (num.lit 1 10) (data self)).
    split; [|split; [discriminate|reflexivity]].
    destruct inp as [i|]; rewrite !call_fraserMode; reflexivity.
  - exists (fst (fit_of fmin self)).
    split; [reflexivity|split; [reflexivity|discriminate]].
Qed.

Lemma call_unknown (method : string) (inp : option F) (self : bgFinder F) :
  ~ In method known_methods ->
  __call__ fmin method inp self = (Raise ValueError, self).
Proof.
  intros Hm. unfold __call__. simpl call_depth.
  unfold known_methods in Hm. simpl in Hm.
  repeat match goal with
         | |- context [String.eqb ?m ?s] =>
             let E := fresh "E" in
             destruct (String.eqb_spec m s) as [E|E];
             [exfalso; intuition congruence|]
         end.
  reflexivity.
Qed.

(** X11: a backup method name the dispatcher does not know is noticed only
    when the contamination test fires: then [smartBackground] raises
    ValueError (after storing the fit), otherwise it returns the fitted mean
    as if the name were fine. *)
Theorem smartBackground_unknown_backup (gaussStdLimit : F)
    (backupMode : string) (inp : option F) (self : bgFinder F) :
  ~ In backupMode known_methods ->
  (num.greater (ratio (fit_of fmin self)) gaussStdLimit = false ->
   smartBackground fmin gaussStdLimit backupMode inp self
   = (Ok (fst (fit_of fmin self)), fitted fmin self))
  /\ (num.greater (ratio (fit_of fmin self)) gaussStdLimit = true ->
      smartBackground fmin gaussStdLimit backupMode inp self
      = (Raise ValueError, fitted fmin self)).
Proof.
  intros Hm. rewrite smartBackground_unfold. split; intros ->.
  - reflexivity.
  - destruct inp; rewrite !call_unknown by exact Hm; reflexivity.
Qed.

(** X12: the parameter [inp] of [smartBackground] can change the outcome only
    by making the call [self(backupMode, inp)] raise: whenever that call
    returns, the outcome is the one without [inp]. *)
Theorem smartBackground_parameter_overwritten (gaussStdLimit : F)
    (backupMode : string) (i a : F) (self : bgFinder F) :
  fst (__call__ fmin backupMode (Some i) (fitted fmin self)) = Ok a ->
  smartBackground fmin gaussStdLimit backupMode (Some i) self
  = smartBackground fmin gaussStdLimit backupMode None self.
Proof.
  intros Hok. rewrite !smartBackground_unfold.
  destruct (num.greater _ _); [|reflexivity].
  pose proof (call_fitted_state fmin backupMode (Some i) self) as Hs.
  destruct (__call__ fmin backupMode (Some i) (fitted fmin self))
    as [r s1]. simpl in Hok, Hs. subst. reflexivity.
Qed.

(** X13: the demonstration block stops with an exception exactly when
    [histMode()] raises on its sample, with that exception; otherwise it
    gets its six values, and the 'Smart Background' value is the 'Gauss Fit'
    value or the 'FraserMode' value. *)
Theorem main_outcome (a : list F) :
  (forall e, fst (histMode None (__init__ a)) = Raise e ->
             main fmin a = Raise e)
  /\ (forall histo, fst (histMode None (__init__ a)) = Ok histo ->
        exists fmode gauss_ smart,
          main fmin a
          = Ok (num.mean a, num.median a, histo, fmode, gauss_, smart)
          /\ fst (fraserMode (Some (num.lit 1 10)) (__init__ a)) = Ok fmode
          /\ fst (gaussFit fmin (__init__ a)) = Ok gauss_
          /\ (smart = gauss_ \/ smart = fmode)).
Proof.
  pose proof (read_only_histMode None (__init__ a)) as Hro.
  unfold main, estimates.
  rewrite (bind_ok mean _ (__init__ a) (num.mean a) (__init__ a) eq_refl).
  rewrite (bind_ok median _ (__init__ a) (num.median a) (__init__ a) eq_refl).
  destruct (histMode None (__init__ a)) as [[h|e] s1] eqn:Eh;
    simpl in Hro; subst s1; cbn [fst].
  - split; [intros e He; discriminate|].
    intros histo Hh. injection Hh as <-.
    rewrite (bind_ok _ _ _ _ _ Eh).
    assert (Hf : fraserMode (Some (num.lit 1 10)) (__init__ a)
                 = (Ok (fraserMode_value (num.lit 1 10) a), __init__ a))
      by apply fraserMode_run.
    assert (Hg : gaussFit fmin (__init__ a)
                 = (Ok (fst (fit_of fmin (__init__ a))),
                    fitted fmin (__init__ a)))
      by apply gaussFit_run.
    rewrite (bind_ok _ _ _ _ _ Hf), (bind_ok _ _ _ _ _ Hg).
    assert (Hrun : exists v,
               smartBackground fmin (num.lit 11 10) "fraserMode"
                 (Some (num.lit 1 10)) (fitted fmin (__init__ a))
               = (Ok v, fitted fmin (__init__ a))
               /\ (v = fst (fit_of fmin (__init__ a))
                   \/ v = fraserMode_value (num.lit 1 10) a)).
    { rewrite smartBackground_unfold, fitted_idem.
      rewrite (fit_of_data fmin (fitted fmin (__init__ a)) (__init__ a))
        by reflexivity.
      destruct (num.greater _ _).
      - rewrite !call_fraserMode. eexists. split; [reflexivity|].
        right. reflexivity.
      - eexists. split; [reflexivity|]. left. reflexivity. }
    destruct Hrun as [v [Hrun Hor]].
    rewrite (bind_ok _ _ _ _ _ Hrun). unfold ret. cbn [fst].
    exists (fraserMode_value (num.lit 1 10) a),
      (fst (fit_of fmin (__init__ a))), v.
    split; [reflexivity|]. split.
    { rewrite Hf. reflexivity. }
    split; [reflexivity|]. exact Hor.
  - split; [|intros histo Hh; discriminate].
    intros e' He. injection He as <-.
    rewrite (bind_raise _ _ _ _ _ Eh). reflexivity.
Qed.

End Composition.

Section CompositionOnFloat64.
Import PrimFloat.

Lemma fraserMode_never_raises_witness :
  data (__init__ (@nil float)) = []
  /\ exists v,
      fraserMode None (__init__ []) = (Ok v, __init__ [])
      /\ is_nan v = true.
Proof.
  split; [reflexivity|].
  destruct (fraserMode_never_raises None (__init__ (@nil float)))
    as [v [Hrun Hv]].
  exists v. split; [exact Hrun|]. rewrite (Hv eq_refl). reflexivity.
Defined.

Lemma estimators_read_data_only_witness :
  data (__init__ Examples.contaminated)
  = data (mk_bgFinder Examples.contaminated (Some (1, 1)%float))
  /\ smartBackground (fmin_converged Examples.contaminated) (num.lit 11 10)
       "fraserMode" None (__init__ Examples.contaminated)
     = smartBackground (fmin_converged Examples.contaminated) (num.lit 11 10)
         "fraserMode" None
         (mk_bgFinder Examples.contaminated (Some (1, 1)%float)).
Proof.
  assert (E : data (__init__ Examples.contaminated)
              = data (mk_bgFinder Examples.contaminated (Some (1, 1)%float)))
    by reflexivity.
  split; [exact E|].
  exact (proj2 (proj2 (proj2 (proj2
           (estimators_read_data_only (fmin_converged Examples.contaminated)
              (__init__ Examples.contaminated)
              (mk_bgFinder Examples.contaminated (Some (1, 1)%float)) E))))
           (num.lit 11 10) "fraserMode" None).
Defined.

Lemma smartBackground_fraserMode_backup_witness :
  num.greater (ratio (fit_of (fmin_converged Examples.contaminated)
                        (__init__ Examples.contaminated)))
    (num.lit 11 10) = true
  /\ exists v,
      smartBackground (fmin_converged Examples.contaminated) (num.lit 11 10)
        "fraserMode" (Some Examples.fifth) (__init__ Examples.contaminated)
      = (Ok v, fitted (fmin_converged Examples.contaminated)
                 (__init__ Examples.contaminated))
      /\ fraserMode None (__init__ Examples.contaminated)
         = (Ok v, __init__ Examples.contaminated).
Proof.
  assert (Hfire : num.greater
                    (ratio (fit_of (fmin_converged Examples.contaminated)
                              (__init__ Examples.contaminated)))
                    (num.lit 11 10) = true) by (vm_compute; reflexivity).
  split; [exact Hfire|].
  destruct (smartBackground_fraserMode_backup
              (fmin_converged Examples.contaminated) (num.lit 11 10)
              (Some Examples.fifth) (__init__ Examples.contaminated))
    as [v [Hrun [_ Hf]]].
  exists v. split; [exact Hrun|exact (Hf Hfire)].
Defined.

Lemma smartBackground_unknown_backup_witness :
  ~ In "bogus" known_methods
  /\ num.greater (ratio (fit_of (fmin_converged Examples.contaminated)
                           (__init__ Examples.contaminated)))
       (num.lit 11 10) = true
  /\ num.greater (ratio (fit_of (fmin_converged Examples.quiet)
                           (__init__ Examples.quiet)))
       (num.lit 11 10) = false
  /\ fst (smartBackground (fmin_converged Examples.contaminated)
            (num.lit 11 10) "bogus" None (__init__ Examples.contaminated))
     = Raise ValueError
  /\ fst (smartBackground (fmin_converged Examples.quiet)
            (num.lit 11 10) "bogus" None (__init__ Examples.quiet))
     = Ok 100%float.
Proof.
  assert (Hm : ~ In "bogus" known_methods).
  { unfold known_methods. simpl. intuition discriminate. }
  assert (Hfire : num.greater
                    (ratio (fit_of (fmin_converged Examples.contaminated)
                              (__init__ Examples.contaminated)))
                    (num.lit 11 10) = true) by (vm_compute; reflexivity).
  assert (Hquiet : num.greater
                     (ratio (fit_of (fmin_converged Examples.quiet)
                               (__init__ Examples.quiet)))
                     (num.lit 11 10) = false) by (vm_compute; reflexivity).
  split; [exact Hm|split; [exact Hfire|split; [exact Hquiet|split]]].
  - rewrite (proj2 (smartBackground_unknown_backup
                      (fmin_converged Examples.contaminated) (num.lit 11 10)
                      "bogus" None (__init__ Examples.contaminated) Hm) Hfire).
    reflexivity.
  - rewrite (proj1 (smartBackground_unknown_backup
                      (fmin_converged Examples.quiet) (num.lit 11 10)
                      "bogus" None (__init__ Examples.quiet) Hm) Hquiet).
    vm_compute. reflexivity.
Defined.

Lemma smartBackground_parameter_overwritten_witness :
  fst (__call__ (fmin_converged Examples.contaminated) "fraserMode"
         (Some Examples.fifth)
         (fitted (fmin_converged Examples.contaminated)
            (__init__ Examples.contaminated))) = Ok 7%float
  /\ smartBackground (fmin_converged Examples.contaminated) (num.lit 11 10)
       "fraserMode" (Some Examples.fifth) (__init__ Examples.contaminated)
     = smartBackground (fmin_converged Examples.contaminated) (num.lit 11 10)
         "fraserMode" None (__init__ Examples.contaminated).
Proof.
  assert (Hok : fst (__call__ (fmin_converged Examples.contaminated)
                       "fraserMode" (Some Examples.fifth)
                       (fitted (fmin_converged Examples.contaminated)
                          (__init__ Examples.contaminated))) = Ok 7%float)
    by (vm_compute; reflexivity).
  split; [exact Hok|].
  exact (smartBackground_parameter_overwritten
           (fmin_converged Examples.contaminated) (num.lit 11 10)
           "fraserMode" Examples.fifth 7%float
           (__init__ Examples.contaminated) Hok).
Defined.

Lemma main_outcome_witness :
  fst (histMode None (__init__ Examples.pair)) = Raise ValueError
  /\ main (fmin_converged Examples.pair) Examples.pair = Raise ValueError
  /\ fst (histMode None (__init__ Examples.contaminated)) = Ok 6%float
  /\ exists fmode gauss_ smart,
      main (fmin_converged Examples.contaminated) Examples.contaminated
      = Ok (num.mean Examples.contaminated, num.median Examples.contaminated,
            6%float, fmode, gauss_, smart)
      /\ (smart = gauss_ \/ smart = fmode).
Proof.
  assert (Hbad : fst (histMode None (__init__ Examples.pair))
                 = Raise ValueError) by (vm_compute; reflexivity).
  assert (Hgood : fst (histMode None (__init__ Examples.contaminated))
                  = Ok 6%float) by (vm_compute; reflexivity).
  split; [exact Hbad|]. split.
  { exact (proj1 (main_outcome (fmin_converged Examples.pair) Examples.pair)
             ValueError Hbad). }
  split; [exact Hgood|].
  destruct (proj2 (main_outcome (fmin_converged Examples.contaminated)
                     Examples.contaminated) 6%float Hgood)
    as [fmode [gauss_ [smart [Hrun [_ [_ Hor]]]]]].
  exists fmode, gauss_, smart. split; [exact Hrun|exact Hor].
Defined.

End CompositionOnFloat64.


Section ValuesAtFacts.
Context {A : Type}.

Lemma values_at_filter (f : A -> Z) (m : Z) (a : list A) :
  values_at a (map f a) m = filter (fun x => f x =? m)%Z a.
Proof.
  unfold values_at. induction a as [|x t IH]; [reflexivity|].
  simpl. destruct (f x =? m)%Z; simpl; rewrite IH; reflexivity.
Qed.

Lemma values_at_In (f : A -> Z) (m : Z) (a : list A) (x : A) :
  In x (values_at a (map f a) m) -> In x a /\ f x = m.
Proof.
  rewrite values_at_filter. intros Hx. apply filter_In in Hx.
  destruct Hx as [Hin Hf]. split; [exact Hin|apply Z.eqb_eq, Hf].
Qed.

Lemma values_at_nonempty (f : A -> Z) (m : Z) (a : list A) :
  In m (map f a) -> values_at a (map f a) m <> [].
Proof.
  rewrite values_at_filter. intros Hm E. apply in_map_iff in Hm.
  destruct Hm as [x [Hf Hx]].
  assert (Hin : In x (filter (fun x => f x =? m)%Z a))
    by (apply filter_In; split; [exact Hx|apply Z.eqb_eq, Hf]).
  rewrite E in Hin. contradiction.
Qed.

End ValuesAtFacts.

(** ** Where the Quantized-Mode estimate lies *)

Section QuantizedBucket.
Context {F : Type} `{num.Float F}.

Lemma last_In (d : F) (l : list F) : l <> [] -> In (last l d) l.
Proof.
  induction l as [|x t IH]; intros Hne; [congruence|].
  destruct t as [|y t]; [left; reflexivity|].
  right. apply IH. discriminate.
Qed.

(** What the median of a non-empty array is made of: a NaN of the array,
    or the mean of its middle value, or of its two middle values. *)
Lemma median_cases (b : list F) :
  b <> [] ->
  exists u v,
    In u b /\ In v b
    /\ ((num.isnan u = true /\ num.median b = u)
        \/ (Nat.odd (List.length b) = true /\ num.median b = num.mean [u])
        \/ (Nat.odd (List.length b) = false
            /\ num.median b = num.mean [u; v])).
Proof.
  intros Hne. unfold num.median. cbv zeta. rewrite length_sort.
  assert (Hpos : (0 < List.length b)%nat).
  { destruct b; [congruence|simpl; lia]. }
  assert (Hhalf : (List.length b / 2 < List.length b)%nat)
    by (apply Nat.Div0.div_lt_upper_bound; lia).
  assert (Hmid : In (nth (List.length b / 2) (num.sort b) (num.of_int 0)) b).
  { apply sort_In. apply nth_In. rewrite length_sort. exact Hhalf. }
  destruct (Nat.eqb_spec (List.length b) 0) as [E|_]; [lia|].
  destruct (num.isnan (last (num.sort b) (num.of_int 0))) eqn:Hnan.
  - assert (Hlast : In (last (num.sort b) (num.of_int 0)) b).
    { apply sort_In. apply last_In. intros E.
      apply (f_equal (@List.length F)) in E. rewrite length_sort in E.
      simpl in E. lia. }
    exists (last (num.sort b) (num.of_int 0)),
           (last (num.sort b) (num.of_int 0)).
    split; [exact Hlast|]. split; [exact Hlast|].
    left. split; [exact Hnan|reflexivity].
  - destruct (Nat.odd (List.length b)) eqn:Hodd.
    + exists (nth (List.length b / 2) (num.sort b) (num.of_int 0)),
             (nth (List.length b / 2) (num.sort b) (num.of_int 0)).
      split; [exact Hmid|]. split; [exact Hmid|].
      right. left. split; reflexivity.
    + exists (nth (List.length b / 2 - 1) (num.sort b) (num.of_int 0)),
             (nth (List.length b / 2) (num.sort b) (num.of_int 0)).
      split; [|split; [exact Hmid|]].
      * apply sort_In. apply nth_In. rewrite length_sort. lia.
      * right. right. split; reflexivity.
Qed.

(** X6: on a non-empty sample and for every scale factor, the Quantized-Mode
    estimate is computed from a non-empty selection of sample values that
    all carry the modal label: it is a NaN of the selection, or the mean of
    one of its values (odd count), or the mean of two of them (even
    count). *)
Theorem fraserMode_in_modal_bucket (multi : F) (self : bgFinder F) :
  data self <> [] ->
  exists m sel,
    stats.mode (quantize multi (data self)) = [m]
    /\ sel = values_at (data self) (quantize multi (data self)) m
    /\ sel <> []
    /\ (forall x, In x sel ->
          In x (data self) /\ num.astype_int (num.multiply x multi) = m)
    /\ fraserMode (Some multi) self = (Ok (num.median sel), self)
    /\ exists u v,
        In u sel /\ In v sel
        /\ ((num.isnan u = true /\ num.median sel = u)
            \/ (Nat.odd (List.length sel) = true
                /\ num.median sel = num.mean [u])
            \/ (Nat.odd (List.length sel) = false
                /\ num.median sel = num.mean [u; v])).
Proof.
  intros Hne.
  assert (Hq : quantize multi (data self) <> []).
  { unfold quantize. destruct (data self); [congruence|discriminate]. }
  destruct (mode_spec (quantize multi (data self)) Hq)
    as [m [Hmode [Hin _]]].
  exists m, (values_at (data self) (quantize multi (data self)) m).
  assert (Hsel : values_at (data self) (quantize multi (data self)) m <> []).
  { apply (values_at_nonempty
             (fun x => num.astype_int (num.multiply x multi))).
    exact Hin. }
  split; [exact Hmode|]. split; [reflexivity|]. split; [exact Hsel|].
  split.
  { intros x Hx. unfold quantize in Hx.
    apply (values_at_In (fun x => num.astype_int (num.multiply x multi)))
      in Hx. exact Hx. }
  split.
  - unfold fraserMode, default. rewrite fraserMode_run.
    unfold fraserMode_value. rewrite Hmode. reflexivity.
  - apply median_cases. exact Hsel.
Qed.

End QuantizedBucket.

Section QuantizedBucketOnFloat64.
Import PrimFloat.

Lemma fraserMode_in_modal_bucket_witness :
  data (__init__ Examples.contaminated) <> []
  /\ stats.mode (quantize Examples.fifth Examples.contaminated) = [1]
  /\ values_at Examples.contaminated
       (quantize Examples.fifth Examples.contaminated) 1 = [6; 7; 8]%float
  /\ fraserMode (Some Examples.fifth) (__init__ Examples.contaminated)
     = (Ok 7%float, __init__ Examples.contaminated)
  /\ exists u, In u [6; 7; 8]%float /\ 7%float = num.mean [u].
Proof.
  assert (Hne : data (__init__ Examples.contaminated) <> [])
    by discriminate.
  split; [exact Hne|].
  destruct (fraserMode_in_modal_bucket Examples.fifth
              (__init__ Examples.contaminated) Hne)
    as [m [sel [Hmode [Hsel [_ [_ [Hrun Hmed]]]]]]].
  assert (Hm : m = 1).
  { assert (E : stats.mode
                  (quantize Examples.fifth
                     (data (__init__ Examples.contaminated))) = [1])
      by (vm_compute; reflexivity).
    rewrite E in Hmode. injection Hmode as Hmode. symmetry. exact Hmode. }
  subst m.
  assert (Es : values_at (data (__init__ Examples.contaminated))
                 (quantize Examples.fifth
                    (data (__init__ Examples.contaminated))) 1
               = [6; 7; 8]%float) by (vm_compute; reflexivity).
  rewrite Es in Hsel. subst sel.
  assert (E7 : num.median [6; 7; 8]%float = 7%float)
    by (vm_compute; reflexivity).
  rewrite E7 in Hrun, Hmed.
  split; [exact Hmode|]. split; [exact Es|]. split; [exact Hrun|].
  destruct Hmed as [u [v [Hu [_ [[Hn Hc]|[[_ Hc]|[Ho _]]]]]]].
  - subst u. discriminate Hn.
  - exists u. split; [exact Hu|exact Hc].
  - discriminate Ho.
Defined.

End QuantizedBucketOnFloat64.


(** ** The spread [_stats] reports *)

Section HistogramSpread.
Context {F : Type} `{num.Float F}.

Lemma filter_none {A} (f : A -> bool) (l : list A) :
  (forall x, In x l -> f x = false) -> filter f l = [].
Proof.
  induction l as [|x t IH]; intros Hf; [reflexivity|].
  simpl. rewrite (Hf x (or_introl eq_refl)).
  apply IH. intros y Hy. apply Hf. right. exact Hy.
Qed.

Lemma In_item (l : list Z) (x : Z) :
  In x l -> exists j, 0 <= j < len l /\ item 0 l j = x.
Proof.
  intros Hx. destruct (In_nth l x 0 Hx) as [n [Hn Hnth]].
  exists (Z.of_nat n). unfold item, len. rewrite Nat2Z.id.
  split; [lia|exact Hnth].
Qed.

(** X3: the second value of [_stats], the 'std of mode', is
    (k * bin_width / 2.0) / 1.41, where k counts the bins whose zeroed count
    exceeds half the peak count (integer division).  k is 0 exactly when
    the zeroed histogram is flat (peak count 0), and at least 1 when the
    peak count is positive. *)
Theorem stats_spread (nbins : F) (self : bgFinder F) (edges : list F) :
  2 <= len (data self) ->
  num.arange (hist_lower (data self)) (hist_upper (data self))
    (bin_width nbins (data self)) = Ok edges ->
  edges <> [] ->
  exists counts am mode_ k,
    ends_zeroed (raw_counts edges (data self)) counts
    /\ first_max counts am
    /\ _stats nbins self
       = (Ok (mode_,
              num.divide
                (num.divide
                   (num.multiply (num.of_int k) (bin_width nbins (data self)))
                   (num.of_int 2))
                (num.lit 141 100)),
          self)
    /\ k = len (filter (fun x => item 0 counts am / 2 <? x) counts)
    /\ 0 <= item 0 counts am
    /\ (item 0 counts am = 0 -> k = 0)
    /\ (0 < item 0 counts am -> 1 <= k).
Proof.
  intros Hlen Har Hedges.
  assert (Hraw : raw_counts edges (data self) <> []).
  { intros E. apply (f_equal (@List.length Z)) in E.
    unfold raw_counts in E. rewrite length_diff_snoc in E.
    unfold num.searchsorted in E. rewrite length_map in E.
    destruct edges; [congruence|discriminate]. }
  destruct (zero_ends _ Hraw) as [counts [Hset Hz]].
  assert (Hc : counts <> []).
  { destruct Hz as [Hl _]. intros ->.
    destruct (raw_counts edges (data self)); [congruence|discriminate]. }
  destruct (argmax_first_max counts Hc) as [am [Ham Hfm]].
  exists counts, am. eexists. eexists.
  split; [exact Hz|split; [exact Hfm|]].
  split.
  { unfold _stats. unfold bind at 1.
    rewrite (ahist_run nbins self edges Hlen Har).
    unfold lift, bind.
    destruct (setitem (raw_counts edges (data self))
                (len (raw_counts edges (data self)) - 1) 0) as [b1|e] eqn:E1;
      simpl in Hset; [|discriminate].
    rewrite Hset, Ham.
    rewrite (getitem_in_range 0) by (destruct Hfm as [Hr _]; exact Hr).
    reflexivity. }
  split; [reflexivity|].
  destruct Hfm as [Hr [Hmax Hfirst]]. destruct Hz as [Hl [H0 _]].
  assert (Hpeak : 0 <= item 0 counts am).
  { assert (Hm0 : item 0 counts 0 <= item 0 counts am) by (apply Hmax; lia).
    lia. }
  split; [exact Hpeak|split].
  - intros Hflat. rewrite Hflat. rewrite filter_none; [reflexivity|].
    intros x Hx. destruct (In_item counts x Hx) as [j [Hj <-]].
    specialize (Hmax j Hj). apply Z.ltb_ge.
    change (0 / 2) with 0. lia.
  - intros Hpos.
    assert (Hin : In (item 0 counts am)
                    (filter (fun x => item 0 counts am / 2 <? x) counts)).
    { apply filter_In. split.
      - unfold item. apply nth_In. unfold len in Hr. lia.
      - apply Z.ltb_lt. apply Z.div_lt; lia. }
    destruct (filter (fun x => item 0 counts am / 2 <? x) counts);
      [contradiction|unfold len; simpl; lia].
Qed.

End HistogramSpread.

Section SpreadOnFloat64.
Import PrimFloat.

Lemma stats_spread_witness :
  2 <= len (data (__init__ Examples.ten))
  /\ num.arange (hist_lower Examples.ten) (hist_upper Examples.ten)
       (bin_width 4%float Examples.ten) = Ok [2; 4; 6; 8]%float
  /\ exists counts am mode_ k,
      first_max counts am
      /\ _stats 4%float (__init__ Examples.ten)
         = (Ok (mode_,
                num.divide
                  (num.divide
                     (num.multiply (num.of_int k)
                        (bin_width 4%float Examples.ten))
                     (num.of_int 2))
                  (num.lit 141 100)),
            __init__ Examples.ten)
      /\ (0 < item 0 counts am -> 1 <= k).
Proof.
  assert (Hlen : 2 <= len (data (__init__ Examples.ten)))
    by (vm_compute; discriminate).
  assert (Har : num.arange (hist_lower (data (__init__ Examples.ten)))
                  (hist_upper (data (__init__ Examples.ten)))
                  (bin_width 4%float (data (__init__ Examples.ten)))
                = Ok [2; 4; 6; 8]%float) by (vm_compute; reflexivity).
  assert (Hne : [2; 4; 6; 8]%float <> []) by discriminate.
  split; [exact Hlen|split; [exact Har|]].
  destruct (stats_spread 4%float (__init__ Examples.ten) [2; 4; 6; 8]%float
              Hlen Har Hne)
    as [counts [am [mode_ [k [_ [Hfm [Hrun [_ [_ [_ Hk]]]]]]]]]].
  exists counts, am, mode_, k.
  split; [exact Hfm|split; [exact Hrun|exact Hk]].
Defined.

End SpreadOnFloat64.

